(** * Signal-detection pipeline of tradingbot.py

    A shallow embedding of [calculate_winrate], [determine_trend] and
    [analyze_volatility] together with the pandas operations they rely on.

    Numbers.  The source computes on binary64 values held in pandas
    Series.  Here a value is an exact rational extended with the three
    special values the source can meet: NaN (warm-up entries of rolling
    windows and indicators, the first percentage change, 0/0) and the two
    infinities (a division by a zero close).  Round-off, overflow and the
    sign of zero are outside the model.

    Library.  [ta.ema] and [ta.atr] come from pandas_ta, which is not part
    of the repository: the development is parametric in them ([TaLib]) and
    states what it needs from them as a contract ([TaLibContract]). *)

From Stdlib Require Import QArith Qabs Qround Lqa.
From stdpp Require Import gmap strings list pretty.

Local Open Scope Z_scope.

(** ** Extended rationals *)

Inductive float : Type :=
  | NaN
  | NInf
  | Fin (q : Q)
  | PInf.

Module Float.

Definition Qltb (a b : Q) : bool := negb (Qle_bool b a).

Definition isnan (x : float) : bool :=
  match x with NaN => true | _ => false end.

Definition notnan (x : float) : bool := negb (isnan x).

Definition isfinite (x : float) : bool :=
  match x with Fin _ => true | _ => false end.

Definition neg (x : float) : float :=
  match x with
  | NaN => NaN
  | NInf => PInf
  | Fin q => Fin (Qred (- q))
  | PInf => NInf
  end.

Definition add (x y : float) : float :=
  match x, y with
  | NaN, _ | _, NaN => NaN
  | PInf, NInf | NInf, PInf => NaN
  | PInf, _ | _, PInf => PInf
  | NInf, _ | _, NInf => NInf
  | Fin a, Fin b => Fin (Qred (a + b))
  end.

Definition sub (x y : float) : float :=
  match x, y with
  | NaN, _ | _, NaN => NaN
  | PInf, PInf | NInf, NInf => NaN
  | PInf, _ | _, NInf => PInf
  | NInf, _ | _, PInf => NInf
  | Fin a, Fin b => Fin (Qred (a - b))
  end.

(** Sign of a rational as a comparison with zero. *)
Definition Qsign (q : Q) : comparison := (Qnum q ?= 0)%Z.

Definition scale_inf (inf : float) (s : comparison) : float :=
  match s with
  | Eq => NaN
  | Gt => inf
  | Lt => neg inf
  end.

Definition mul (x y : float) : float :=
  match x, y with
  | NaN, _ | _, NaN => NaN
  | Fin a, Fin b => Fin (Qred (a * b))
  | PInf, Fin b => scale_inf PInf (Qsign b)
  | NInf, Fin b => scale_inf NInf (Qsign b)
  | Fin a, PInf => scale_inf PInf (Qsign a)
  | Fin a, NInf => scale_inf NInf (Qsign a)
  | PInf, PInf | NInf, NInf => PInf
  | PInf, NInf | NInf, PInf => NInf
  end.

(** Division as numpy performs it on float64: a nonzero value over zero
    is an infinity, zero over zero is NaN. *)
Definition div (x y : float) : float :=
  match x, y with
  | NaN, _ | _, NaN => NaN
  | Fin a, Fin b =>
      match Qsign b with
      | Eq => scale_inf PInf (Qsign a)
      | _ => Fin (Qred (a / b))
      end
  | Fin _, _ => Fin 0
  | PInf, Fin b => match Qsign b with Lt => NInf | _ => PInf end
  | NInf, Fin b => match Qsign b with Lt => PInf | _ => NInf end
  | _, _ => NaN
  end.

(** [x < y]; false as soon as one side is NaN. *)
Definition ltb (x y : float) : bool :=
  match x, y with
  | NaN, _ | _, NaN => false
  | _, NInf => false
  | NInf, _ => true
  | PInf, _ => false
  | Fin _, PInf => true
  | Fin a, Fin b => Qltb a b
  end.

Definition gtb (x y : float) : bool := ltb y x.

(** [x <= y]; false as soon as one side is NaN. *)
Definition leb (x y : float) : bool :=
  match x, y with
  | NaN, _ | _, NaN => false
  | NInf, _ => true
  | _, PInf => true
  | Fin a, Fin b => Qle_bool a b
  | _, _ => false
  end.

(** The same value: rationals are compared as numbers, not as
    fractions. *)
Definition eqv (x y : float) : Prop :=
  match x, y with
  | NaN, NaN | NInf, NInf | PInf, PInf => True
  | Fin a, Fin b => (a == b)%Q
  | _, _ => False
  end.

Definition abs (x : float) : float :=
  match x with
  | NaN => NaN
  | NInf | PInf => PInf
  | Fin q => Fin (Qred (Qabs q))
  end.

(** Round half to even, to the nearest integer. *)
Definition rint (q : Q) : Z :=
  let h := Qfloor (q + (1 # 2)) in
  if Qeq_bool (q + (1 # 2)) (inject_Z h) && Z.odd h then h - 1 else h.

(** [round(x, ndigits)] on a finite value. *)
Definition Qround (ndigits : nat) (q : Q) : Q :=
  let p := 10 ^ Z.of_nat ndigits in
  Qred (inject_Z (rint (q * inject_Z p)) / inject_Z p).

Definition round (x : float) (ndigits : nat) : float :=
  match x with
  | Fin q => Fin (Qround ndigits q)
  | _ => x
  end.

Definition of_nat (n : nat) : float := Fin (inject_Z (Z.of_nat n)).

(** [f"{x:.<d>f}"]. *)
Definition pad_left (d : nat) (s : string) : string :=
  String.concat "" (replicate (d - String.length s) "0"%string) +:+ s.

Definition format_fixed (d : nat) (x : float) : string :=
  match x with
  | NaN => "nan"
  | PInf => "inf"
  | NInf => "-inf"
  | Fin q =>
      let p := 10 ^ Z.of_nat d in
      let n := rint (Qabs q * inject_Z p) in
      let sign := if Qltb q 0 then "-"%string else ""%string in
      let ip := pretty (n / p) in
      match d with
      | O => sign +:+ ip
      | _ => sign +:+ ip +:+ "." +:+ pad_left d (pretty (n mod p))
      end
  end.

End Float.

(** ** pandas: Series, DataFrame and the exceptions the code can meet *)

Abbreviation Series := (list float).

Inductive exn : Type :=
  | KeyError (k : string)
  | IndexError
  | ZeroDivisionError.

(** [str(e)] *)
Definition exn_str (e : exn) : string :=
  match e with
  | KeyError k => "'" +:+ k +:+ "'"
  | IndexError => "single positional indexer is out-of-bounds"
  | ZeroDivisionError => "division by zero"
  end.

Inductive Result (A : Type) : Type :=
  | Ok (a : A)
  | Raise (e : exn).
Arguments Ok {A} a.
Arguments Raise {A} e.

Definition bind {A B : Type} (m : Result A) (k : A -> Result B) : Result B :=
  match m with
  | Ok a => k a
  | Raise e => Raise e
  end.

Definition try_except {A : Type} (m : Result A) (handler : exn -> A) : A :=
  match m with
  | Ok a => a
  | Raise e => handler e
  end.

Declare Scope result_scope.
Delimit Scope result_scope with result.
Notation "x <~ m ;; k" := (bind m (fun x => k))
  (at level 100, m at next level, right associativity) : result_scope.
Local Open Scope result_scope.

(** A frame: the row index (timestamps) and the named columns.  A column
  assignment replaces or adds a whole column. *)
Record DataFrame : Type := mkDataFrame {
  index : list Z;
  columns : gmap string Series
}.

Module Pandas.

(** [len(df)] *)
Definition len (df : DataFrame) : nat := length (index df).

(** [df[k]] *)
Definition getitem (df : DataFrame) (k : string) : Result Series :=
  match columns df !! k with
  | Some s => Ok s
  | None => Raise (KeyError k)
  end.

(** [df[k] = s] *)
Definition setitem (df : DataFrame) (k : string) (s : Series) : DataFrame :=
  {| index := index df; columns := <[k := s]> (columns df) |}.

(** [s.iloc[-1]] *)
Definition iloc_last (s : Series) : Result float :=
  match last s with
  | Some x => Ok x
  | None => Raise IndexError
  end.

(** [cur / prev - 1] *)
Definition change (prev cur : float) : float :=
  Float.sub (Float.div cur prev) (Fin 1).

(** [s.pct_change()]: [s / s.shift(1) - 1]; the first entry has no
    predecessor.  Candle columns hold no NaN, so there is nothing for the
    fill step of older pandas versions to pad. *)
Definition pct_change (s : Series) : Series :=
  match s with
  | [] => []
  | _ :: t => NaN :: zip_with change s t
  end.

(** [s.dropna()] *)
Definition dropna (s : Series) : Series := List.filter Float.notnan s.

(** [s[s > 0]] *)
Definition positive (s : Series) : Series :=
  List.filter (fun x => Float.gtb x (Fin 0)) s.

Definition min2 (x y : float) : float := if Float.ltb y x then y else x.
Definition max2 (x y : float) : float := if Float.ltb x y then y else x.

Definition series_min (s : Series) : float :=
  match s with
  | [] => NaN
  | x :: t => fold_left min2 t x
  end.

Definition series_max (s : Series) : float :=
  match s with
  | [] => NaN
  | x :: t => fold_left max2 t x
  end.

(** The window of [w] entries ending at position [i]. *)
Definition window (w i : nat) (s : Series) : Series :=
  drop (S i - w) (take (S i) s).

(** [s.rolling(w).<agg>()]: [min_periods] defaults to the window size,
    so a position has a value only when its window holds [w] entries
    that are not NaN. *)
Definition rolling (w : nat) (agg : Series -> float) (s : Series) : Series :=
  map (fun i =>
         let obs := dropna (window w i s) in
         if (length obs <? w)%nat then NaN else agg obs)
      (seq 0 (length s)).

Definition rolling_min (w : nat) : Series -> Series := rolling w series_min.
Definition rolling_max (w : nat) : Series -> Series := rolling w series_max.

(** [a / b] on two Python ints. *)
Definition int_truediv (a b : nat) : Result float :=
  match b with
  | O => Raise ZeroDivisionError
  | _ => Ok (Float.div (Float.of_nat a) (Float.of_nat b))
  end.

End Pandas.
Import Pandas.

(** ** pandas_ta *)

Class TaLib : Type := {
  ta_ema : Series -> nat -> Series;
  ta_atr : Series -> Series -> Series -> nat -> Series
}.

(** The indicators are returned on the index of their input: one entry per
  candle, provided the input is at least as long as the period. *)
Class TaLibContract (L : TaLib) : Prop := {
  ta_ema_length : forall (s : Series) (n : nat),
    (0 < n <= length s)%nat -> length (ta_ema s n) = length s;
  ta_atr_length : forall (h l c : Series) (n : nat),
    (0 < n <= length c)%nat -> length h = length c -> length l = length c ->
    length (ta_atr h l c n) = length c
}.

(** ** tradingbot.py *)

Definition TIMEFRAMES : gmap string string :=
  {[ "analysis" := "15m"; "sl" := "5m"; "entry" := "1m" ]}%string.

Inductive Level : Type := INFO | ERROR.

Definition LogRecord : Type := (Level * string)%type.

Inductive Direction : Type := BUY | SELL.

(** The dictionary [analyze_volatility] returns. *)
Record Analysis : Type := mkAnalysis {
  symbol : string;
  signal : Direction;
  winrate : string;
  trend : string;
  entry : float;
  sl : float;
  tp1 : float;
  tp2 : float
}.

Section Bot.

Context {L : TaLib}.

(** [get_deriv_data] (lines 78-124), the candle source: a frame for a
    symbol and a granularity, or [None].  Each call builds a new frame, so
    the three frames of one analysis share no column. *)
Variable get_deriv_data : string -> string -> option DataFrame.

(** Lines 126-130. *)
Definition calculate_winrate (data : DataFrame) : Result string :=
  if (len data <? 100)%nat then Ok "N/A"%string
  else
    close <~ getitem data "close";;
    let changes := dropna (pct_change close) in
    ratio <~ int_truediv (length (positive changes)) (length changes);;
    Ok (Float.format_fixed 1 (Float.mul ratio (Fin 100)) +:+ "%").

(** Lines 132-137.  The two assignments change the frame of the caller:
    the function returns the label together with the frame as the call
    leaves it. *)
Definition determine_trend (data : DataFrame) : Result (string * DataFrame) :=
  if (len data <? 50)%nat then Ok ("N/A"%string, data)
  else
    close <~ getitem data "close";;
    let data := setitem data "EMA20" (ta_ema close 20) in
    close <~ getitem data "close";;
    let data := setitem data "EMA50" (ta_ema close 50) in
    ema20 <~ getitem data "EMA20";;
    ema20 <~ iloc_last ema20;;
    ema50 <~ getitem data "EMA50";;
    ema50 <~ iloc_last ema50;;
    Ok (if Float.gtb ema20 ema50 then "Up trend"%string else "Down trend"%string,
        data).

(** [df['ATR'] = ta.atr(df['high'], df['low'], df['close'], 14)] *)
Definition attach_atr (df : DataFrame) : Result DataFrame :=
  high <~ getitem df "high";;
  low <~ getitem df "low";;
  close <~ getitem df "close";;
  Ok (setitem df "ATR" (ta_atr high low close 14)).

(** [df['low'].rolling(50).min().iloc[-1]] *)
Definition support_level (df : DataFrame) : Result float :=
  low <~ getitem df "low";;
  iloc_last (rolling_min 50 low).

(** [df['high'].rolling(50).max().iloc[-1]] *)
Definition resistance_level (df : DataFrame) : Result float :=
  high <~ getitem df "high";;
  iloc_last (rolling_max 50 high).

Definition buffer_of (support resistance : float) : float :=
  Float.mul (Fin (5 # 1000)) (Float.sub resistance support).

Definition insufficient (tf symbol : string) : option Analysis * list LogRecord :=
  (None, [(ERROR, "Error: Insufficient " +:+ tf +:+ " data for " +:+ symbol)]).

(** Lines 174-179: the direction, the entry and the stop-loss, or no
    signal. *)
Definition detect_signal (last_close support resistance buffer atr_sl : float)
    (trend : string) : option (Direction * float * float) :=
  if Float.gtb last_close (Float.add resistance buffer)
     && String.eqb trend "Up trend"
  then Some (BUY, last_close, Float.sub last_close (Float.mul atr_sl (Fin 3)))
  else if Float.ltb last_close (Float.sub support buffer)
          && String.eqb trend "Down trend"
  then Some (SELL, last_close, Float.add last_close (Float.mul atr_sl (Fin 3)))
  else None.

(** Lines 187-188: [entry + (atr_tp * k) if direction == 'BUY' else
    entry - (atr_tp * k)]. *)
Definition take_profit (direction : Direction) (entry atr_tp : float) (k : Q)
    : float :=
  match direction with
  | BUY => Float.add entry (Float.mul atr_tp (Fin k))
  | SELL => Float.sub entry (Float.mul atr_tp (Fin k))
  end.

Definition no_signal (symbol : string) (last_close : float)
    : option Analysis * list LogRecord :=
  (None,
   [(INFO, "No signal: " +:+ symbol +:+ " at " +:+ Float.format_fixed 5 last_close)]).

(** Lines 186-199: the two targets and the returned dictionary. *)
Definition report (symbol : string) (direction : Direction)
    (entry sl atr_tp : float) (trend winrate : string) : Analysis :=
  let tp1 := take_profit direction entry atr_tp 1 in
  let tp2 := take_profit direction entry atr_tp 2 in
  {| symbol := symbol;
     signal := direction;
     winrate := winrate;
     trend := trend;
     entry := Float.round entry 5;
     sl := Float.round sl 5;
     tp1 := Float.round tp1 5;
     tp2 := Float.round tp2 5 |}.

(** Lines 160-199: the three frames have passed their length checks. *)
Definition analyze_frames (symbol : string) (df_15m df_5m df_1m : DataFrame)
  : Result (option Analysis * list LogRecord) :=
  df_5m <~ attach_atr df_5m;;
  df_15m <~ attach_atr df_15m;;
  atr_sl <~ getitem df_5m "ATR";;
  atr_sl <~ iloc_last atr_sl;;
  atr_tp <~ getitem df_15m "ATR";;
  atr_tp <~ iloc_last atr_tp;;
  support <~ support_level df_15m;;
  resistance <~ resistance_level df_15m;;
  close_1m <~ getitem df_1m "close";;
  last_close <~ iloc_last close_1m;;
  let buffer := buffer_of support resistance in
  labelled <~ determine_trend df_15m;;
  let '(trend, df_15m) := labelled in
  match detect_signal last_close support resistance buffer atr_sl trend with
  | None => Ok (no_signal symbol last_close)
  | Some (direction, entry, sl) =>
      winrate <~ calculate_winrate df_15m;;
      Ok (Some (report symbol direction entry sl atr_tp trend winrate), [])
  end.

(** The body of the [try] block. *)
Definition analysis (symbol : string) : Result (option Analysis * list LogRecord) :=
  match get_deriv_data symbol (TIMEFRAMES !!! "analysis"%string) with
  | None => Ok (insufficient "15m" symbol)
  | Some df_15m =>
      if (len df_15m <? 100)%nat then Ok (insufficient "15m" symbol)
      else
        match get_deriv_data symbol (TIMEFRAMES !!! "sl"%string) with
        | None => Ok (insufficient "5m" symbol)
        | Some df_5m =>
            if (len df_5m <? 50)%nat then Ok (insufficient "5m" symbol)
            else
              match get_deriv_data symbol (TIMEFRAMES !!! "entry"%string) with
              | None => Ok (insufficient "1m" symbol)
              | Some df_1m =>
                  if (len df_1m <? 10)%nat then Ok (insufficient "1m" symbol)
                  else analyze_frames symbol df_15m df_5m df_1m
              end
        end
  end.

(** The returned value and the records written to the logger. *)
Definition analyze_volatility (symbol : string) : option Analysis * list LogRecord :=
  try_except (analysis symbol)
    (fun e => (None, [(ERROR, "Analysis Error: " +:+ exn_str e)])).

End Bot.

(** ** Quantities the statements refer to *)

Section Views.

Context {L : TaLib}.

(** The three columns the ATR is computed from, read in the order of
    lines 161-162. *)
Definition hlc_of (df : DataFrame) : Result (Series * Series * Series) :=
  high <~ getitem df "high";;
  low <~ getitem df "low";;
  close <~ getitem df "close";;
  Ok (high, low, close).

(** The value line 163 (resp. 164) reads: the latest ATR(14) of a frame. *)
Definition latest_atr (df : DataFrame) : Result float :=
  hlc <~ hlc_of df;;
  let '(high, low, close) := hlc in
  iloc_last (ta_atr high low close 14).

(** The label [determine_trend] returns. *)
Definition trend_of (df : DataFrame) : Result string :=
  labelled <~ determine_trend df;;
  Ok (fst labelled).

(** The outcome once the indicators are known: lines 172-199. *)
Definition outcome (symbol : string) (df_15m : DataFrame)
    (atr_sl atr_tp support resistance last_close : float) (label : string)
  : Result (option Analysis * list LogRecord) :=
  match detect_signal last_close support resistance
                      (buffer_of support resistance) atr_sl label with
  | None => Ok (no_signal symbol last_close)
  | Some (direction, entry, sl) =>
      winrate <~ calculate_winrate df_15m;;
      Ok (Some (report symbol direction entry sl atr_tp label winrate), [])
  end.

End Views.

(** Line 169: the most recent close of a frame. *)
Definition last_close_of (df : DataFrame) : Result float :=
  close <~ getitem df "close";;
  iloc_last close.

Definition candle_columns : list string := ["high"; "low"; "close"]%string.

(** A frame of candles: the high, low and close columns are present, hold
  one finite price per row. *)
Definition candle_frame (df : DataFrame) : bool :=
  forallb (fun k =>
             match columns df !! k with
             | Some s => (length s =? len df)%nat && forallb Float.isfinite s
             | None => false
             end)
          candle_columns.



(** [df is None or len(df) < n] *)
Definition too_short (n : nat) (df : option DataFrame) : bool :=
  match df with
  | None => true
  | Some d => (len d <? n)%nat
  end.

(** Two frames carry the same candles: as many rows, and the same high,
  low and close columns (whatever else they hold). *)
Definition same_candles (d e : DataFrame) : Prop :=
  len d = len e /\ forall k, k ∈ candle_columns -> columns d !! k = columns e !! k.

(** Two answers of the candle source carry the same series. *)
Definition same_series (a b : option DataFrame) : Prop :=
  match a, b with
  | Some d, Some e => same_candles d e
  | None, None => True
  | _, _ => False
  end.



(** The last [w] entries of a series. *)
Definition trailing (w : nat) (s : Series) : Series := drop (length s - w) s.



(** Follows the spec's words (section 4.4): the rolling minimum of the lows
  and maximum of the highs taken at the second-to-last computed point. *)
Definition iloc_second_to_last (s : Series) : Result float :=
  iloc_last (removelast s).

Definition spec_support_level (df : DataFrame) : Result float :=
  low <~ getitem df "low";;
  iloc_second_to_last (rolling_min 50 low).

Definition spec_resistance_level (df : DataFrame) : Result float :=
  high <~ getitem df "high";;
  iloc_second_to_last (rolling_max 50 high).

(** ** A reference indicator library

    Modelled from the spec: pandas_ta is not under src/, so the instance
    below follows section 4.2 of the specification.  It is used to run the
    code on concrete candles; the theorems hold for every [TaLib]. *)

Module Reference.

Definition mean (s : Series) : float :=
  Float.div (fold_left Float.add s (Fin 0)) (Float.of_nat (length s)).

(** [prevEma + factor * (value - prevEma)] *)
Fixpoint ema_from (factor prev : float) (s : Series) : Series :=
  match s with
  | [] => []
  | x :: t =>
      let e := Float.add prev (Float.mul factor (Float.sub x prev)) in
      e :: ema_from factor e t
  end.

(** The first [period - 1] entries are undefined, the next one is the
    simple average of the first [period] values, the factor is
    [2 / (period + 1)]. *)
Definition ema (s : Series) (period : nat) : Series :=
  if (length s <? period)%nat then replicate (length s) NaN
  else
    let seed := mean (take period s) in
    let factor := Float.div (Fin 2) (Float.of_nat (period + 1)) in
    replicate (period - 1) NaN ++ seed :: ema_from factor seed (drop period s).

(** [max(high - low, |high - prevClose|, |low - prevClose|)]; the first
    bar has no previous close and keeps [high - low]. *)
Definition bar_range (h l pc : float) : float :=
  max2 (max2 (Float.sub h l) (Float.abs (Float.sub h pc)))
       (Float.abs (Float.sub l pc)).

Fixpoint zip3_with {A B C D : Type} (f : A -> B -> C -> D)
    (a : list A) (b : list B) (c : list C) : list D :=
  match a, b, c with
  | x :: a', y :: b', z :: c' => f x y z :: zip3_with f a' b' c'
  | _, _, _ => []
  end.

Definition true_range (high low close : Series) : Series :=
  match high, low with
  | h :: high', l :: low' =>
      Float.sub h l :: zip3_with bar_range high' low' close
  | _, _ => []
  end.

(** The simple rolling average of the true range over [period] bars. *)
Definition atr (high low close : Series) (period : nat) : Series :=
  rolling period mean (true_range high low close).

Definition lib : TaLib := {| ta_ema := ema; ta_atr := atr |}.

End Reference.

(** ** Sample candles *)

Module Samples.

Definition column (f : nat -> Q) (n : nat) : Series :=
  map (fun i => Fin (f i)) (seq 0 n).

(** [n] candles whose close is [c i], with high and low one unit away. *)
Definition candles (c : nat -> Q) (n : nat) : DataFrame :=
  {| index := map Z.of_nat (seq 0 n);
     columns := {[ "open" := column c n;
                   "high" := column (fun i => c i + 1)%Q n;
                   "low" := column (fun i => c i - 1)%Q n;
                   "close" := column c n ]}%string |}.

(** [n] candles with open = high = low = close = [v]. *)
Definition flat (v : Q) (n : nat) : DataFrame :=
  {| index := map Z.of_nat (seq 0 n);
     columns := {[ "open" := column (fun _ => v) n;
                   "high" := column (fun _ => v) n;
                   "low" := column (fun _ => v) n;
                   "close" := column (fun _ => v) n ]}%string |}.

(** Fifty candles closing at 11, then one closing at 2. *)
Definition dip (i : nat) : Q := if (i <? 50)%nat then 11 else 2.

Definition rising (i : nat) : Q := inject_Z (100 + Z.of_nat i).
Definition falling (i : nat) : Q := inject_Z (300 - Z.of_nat i).

(** A source that serves the same three frames for every symbol. *)
Definition source (df_15m df_5m df_1m : option DataFrame)
    (symbol timeframe : string) : option DataFrame :=
  if String.eqb timeframe "15m" then df_15m
  else if String.eqb timeframe "5m" then df_5m
  else if String.eqb timeframe "1m" then df_1m
  else None.

(** Rising trend and risk candles, and an entry series closing at [c]. *)
Definition uptrend (c : Q) : string -> string -> option DataFrame :=
  source (Some (candles rising 100)) (Some (candles rising 50)) (Some (flat c 10)).

(** Falling trend candles, and an entry series closing at [c]. *)
Definition downtrend (c : Q) : string -> string -> option DataFrame :=
  source (Some (candles falling 100)) (Some (candles rising 50)) (Some (flat c 10)).



End Samples.


(** ** The rest of tradingbot.py: the symbol table and the webhook

    Text.  A Python [str] is modelled by its UTF-8 bytes: comparison,
    [startswith], [split(" ")] and concatenation act on the bytes as they
    act on the characters.  [upper] and [strip] are those of ASCII text; on
    characters above 127 Python's act further, so the statements about them
    are for ASCII messages. *)

Module PyStr.

Definition nl : string := String (Ascii.ascii_of_nat 10) EmptyString.

Definition is_ascii_char (c : Ascii.ascii) : bool := (Ascii.nat_of_ascii c <? 128)%nat.

Fixpoint is_ascii (s : string) : bool :=
  match s with
  | EmptyString => true
  | String c t => is_ascii_char c && is_ascii t
  end.

Definition upper_char (c : Ascii.ascii) : Ascii.ascii :=
  let n := Ascii.nat_of_ascii c in
  if ((97 <=? n) && (n <=? 122))%nat then Ascii.ascii_of_nat (n - 32) else c.

(** [s.upper()] *)
Fixpoint upper (s : string) : string :=
  match s with
  | EmptyString => EmptyString
  | String c t => String (upper_char c) (upper t)
  end.

(** The ASCII characters [str.isspace] accepts: tab to carriage return,
    the four separators 28-31 and the space. *)
Definition isspace (c : Ascii.ascii) : bool :=
  let n := Ascii.nat_of_ascii c in
  (((9 <=? n) && (n <=? 13)) || ((28 <=? n) && (n <=? 32)))%nat.

Fixpoint lstrip (s : string) : string :=
  match s with
  | EmptyString => EmptyString
  | String c t => if isspace c then lstrip t else s
  end.

Fixpoint rstrip (s : string) : string :=
  match s with
  | EmptyString => EmptyString
  | String c t =>
      match rstrip t with
      | EmptyString => if isspace c then EmptyString else String c EmptyString
      | r => String c r
      end
  end.

(** [s.strip()] *)
Definition strip (s : string) : string := rstrip (lstrip s).

(** [s.startswith(p)] *)
Definition startswith (s p : string) : bool := String.prefix p s.

(** [s.split(sep)] for a separator of one character: every occurrence
    splits, empty pieces are kept. *)
Fixpoint split (sep : Ascii.ascii) (s : string) : list string :=
  match s with
  | EmptyString => [EmptyString]
  | String c t =>
      if Ascii.eqb c sep then EmptyString :: split sep t
      else
        match split sep t with
        | [] => [String c EmptyString]
        | w :: ws => String c w :: ws
        end
  end.

(** No space in [s]. *)
Fixpoint no_space (s : string) : bool :=
  match s with
  | EmptyString => true
  | String c t => negb (Ascii.eqb c Ascii.Space) && no_space t
  end.

End PyStr.

(** Lines 24-65. *)
Definition SYMBOL_MAP : gmap string string :=
  list_to_map
    [("VOLATILITY100", "1HZ100V");
     ("VOLATILITY75", "1HZ75V");
     ("VOLATILITY50", "1HZ50V");
     ("VOLATILITY25", "1HZ25V");
     ("BOOM500", "BOOM500");
     ("BOOM1000", "BOOM1000");
     ("CRASH500", "CRASH500");
     ("CRASH1000", "CRASH1000");
     ("STEP", "STP");
     ("JUMP10", "JUMP10");
     ("JUMP25", "JUMP25");
     ("JUMP50", "JUMP50");
     ("JUMP75", "JUMP75");
     ("JUMP100", "JUMP100");
     ("EURUSD", "frxEURUSD");
     ("GBPUSD", "frxGBPUSD");
     ("USDJPY", "frxUSDJPY");
     ("AUDUSD", "frxAUDUSD");
     ("USDCAD", "frxUSDCAD");
     ("USDCHF", "frxUSDCHF");
     ("NZDUSD", "frxNZDUSD");
     ("XAUUSD", "frxXAUUSD");
     ("XAGUSD", "frxXAGUSD");
     ("WALLSTREET", "WLDAUD");
     ("DOWJONES", "DJI");
     ("NIKKEI225", "JP225");
     ("FTSE100", "UK100")]%string.

(** Lines 74-76: [SYMBOL_MAP.get(symbol.upper(), symbol)]. *)
Definition convert_symbol (symbol : string) : string :=
  default symbol (SYMBOL_MAP !! PyStr.upper symbol).

(** The table read backwards: the name a provider symbol stands for. *)
Definition name_of (v : string) : option string :=
  fst <$> List.find (fun kv => String.eqb (snd kv) v) (map_to_list SYMBOL_MAP).

(** Two checks run over the entries of the table. *)
Definition fixed_entry (kv : string * string) : bool :=
  String.eqb (convert_symbol (snd kv)) (snd kv).

Definition named_entry (kv : string * string) : bool :=
  match name_of (snd kv) with
  | Some k => String.eqb k (fst kv)
  | None => false
  end.

(** The words of line 214 and the prefix of line 230. *)
Definition reserved_entry (kv : string * string) : bool :=
  existsb (String.eqb (fst kv)) ["HI"; "HELLO"; "START"]%string
  || PyStr.startswith (fst kv) "PRICE ".

(** What can leave the view function: Body is missing ([None.strip()]),
    a list index is out of range, or pandas raises. *)
Inductive web_exn : Type :=
  | AttributeError
  | ListIndexError
  | Uncaught (e : exn).

(** The view function returns [str(response)], a TwiML document holding
    the one message the branch taken has added; the model keeps the text
    of that message. *)
Inductive Response : Type :=
  | Message (body : string)
  | Unhandled (e : web_exn).

Definition HELP : string :=
  ("ðŸ“ˆ Deriv Multi-Asset Bot ðŸ“ˆ" +:+ PyStr.nl +:+
   "Supported Instruments:" +:+ PyStr.nl +:+
   "Volatility Indices:" +:+ PyStr.nl +:+
   "â€¢ VOLATILITY25/50/75/100" +:+ PyStr.nl +:+
   "Boom & Crash:" +:+ PyStr.nl +:+
   "â€¢ BOOM500/1000" +:+ PyStr.nl +:+
   "â€¢ CRASH500/1000" +:+ PyStr.nl +:+
   "Forex Pairs:" +:+ PyStr.nl +:+
   "â€¢ EURUSD â€¢ GBPUSD â€¢ USDJPY" +:+ PyStr.nl +:+
   "â€¢ AUDUSD â€¢ USDCAD â€¢ USDCHF â€¢ NZDUSD" +:+ PyStr.nl +:+
   "Commodities:" +:+ PyStr.nl +:+
   "â€¢ XAUUSD (Gold) â€¢ XAGUSD (Silver)" +:+ PyStr.nl +:+
   "Jump Indices:" +:+ PyStr.nl +:+
   "â€¢ JUMP10/25/50/75/100" +:+ PyStr.nl +:+
   "" +:+ PyStr.nl +:+
   "Commands:" +:+ PyStr.nl +:+
   "âž¤ Analysis: SYMBOL" +:+ PyStr.nl +:+
   "âž¤ Price: PRICE SYMBOL")%string.

Definition PRICE_UNAVAILABLE : string := "âŒ Price unavailable"%string.

Definition INVALID_COMMAND : string := "âŒ Invalid command. Send 'HI' for help"%string.

Definition direction_str (d : Direction) : string :=
  match d with
  | BUY => "BUY"
  | SELL => "SELL"
  end.

(** [if price]: [None] and a zero are false, every other value (NaN
    included) is true. *)
Definition truthy (price : option float) : bool :=
  match price with
  | None => false
  | Some (Fin q) => negb (Qeq_bool q 0)
  | Some _ => true
  end.

(** Line 234. *)
Definition price_message (symbol : string) (price : option float) : string :=
  match price with
  | Some p =>
      if truthy price
      then ("Current " +:+ symbol +:+ ": " +:+ Float.format_fixed 5 p)%string
      else PRICE_UNAVAILABLE
  | None => PRICE_UNAVAILABLE
  end.

(** Lines 241-251; [requested] is the variable [symbol] of line 238. *)
Definition analysis_message (requested : string) (analysis : option Analysis)
    : string :=
  match analysis with
  | Some a =>
      ("ðŸ“Š " +:+ symbol a +:+ " Analysis" +:+ PyStr.nl +:+
       "Signal: " +:+ direction_str (signal a) +:+ PyStr.nl +:+
       "Winrate: " +:+ winrate a +:+ PyStr.nl +:+
       "15m Trend: " +:+ trend a +:+ PyStr.nl +:+
       "Entry: " +:+ Float.format_fixed 5 (entry a) +:+ PyStr.nl +:+
       "SL: " +:+ Float.format_fixed 5 (sl a) +:+ PyStr.nl +:+
       "TP1: " +:+ Float.format_fixed 5 (tp1 a) +:+ PyStr.nl +:+
       "TP2: " +:+ Float.format_fixed 5 (tp2 a))%string
  | None => ("No current opportunity in " +:+ requested)%string
  end.

Definition zero_price (x : float) : bool :=
  match x with
  | Fin q => Qeq_bool q 0
  | _ => false
  end.

(** The last candle of a frame has its low at or below its high. *)
Definition last_candle_ordered (df : DataFrame) : bool :=
  match columns df !! "low"%string, columns df !! "high"%string with
  | Some lows, Some highs =>
      match last lows, last highs with
      | Some l, Some h => Float.leb l h
      | _, _ => false
      end
  | _, _ => false
  end.

Section Webhook.

Context {L : TaLib}.
Variable get_deriv_data : string -> string -> option DataFrame.

(** Lines 230-235: the PRICE command. *)
Definition price_command (incoming_msg : string) : Response :=
  match PyStr.split Ascii.Space incoming_msg !! 1%nat with
  | None => Unhandled ListIndexError
  | Some symbol =>
      match get_deriv_data symbol "1m" with
      | None => Message (price_message symbol None)
      | Some df =>
          match last_close_of df with
          | Ok price => Message (price_message symbol (Some price))
          | Raise e => Unhandled (Uncaught e)
          end
      end
  end.

(** Lines 214-257, on the message as line 211 has normalised it. *)
Definition dispatch (incoming_msg : string) : Response :=
  if existsb (String.eqb incoming_msg) ["HI"; "HELLO"; "START"]%string
  then Message HELP
  else if PyStr.startswith incoming_msg "PRICE "
  then price_command incoming_msg
  else
    match SYMBOL_MAP !! incoming_msg with
    | Some _ =>
        let symbol := incoming_msg in
        let analysis := fst (analyze_volatility get_deriv_data symbol) in
        Message (analysis_message symbol analysis)
    | None => Message INVALID_COMMAND
    end.

(** Lines 209-257; [body] is [request.form.get("Body")]. *)
Definition webhook (body : option string) : Response :=
  match body with
  | None => Unhandled AttributeError
  | Some b => dispatch (PyStr.upper (PyStr.strip b))
  end.

End Webhook.

(** More sample frames. *)
Module MoreSamples.

(** A frame with rows and no column. *)
Definition bare (n : nat) : DataFrame :=
  {| index := map Z.of_nat (seq 0 n); columns := ∅ |}.

(** Candles without the "high" column. *)
Definition no_high (n : nat) : DataFrame :=
  {| index := map Z.of_nat (seq 0 n);
     columns := {[ "low" := Samples.column Samples.rising n;
                   "close" := Samples.column Samples.rising n ]}%string |}.

(** Candles between 5 and 6 whose recorded close is 0. *)
Definition zero_close (n : nat) : DataFrame :=
  {| index := map Z.of_nat (seq 0 n);
     columns := {[ "high" := Samples.column (fun _ => 6%Q) n;
                   "low" := Samples.column (fun _ => 5%Q) n;
                   "close" := Samples.column (fun _ => 0%Q) n ]}%string |}.

End MoreSamples.

Import Samples.

(** * Properties *)

(** ** Arithmetic of the value model *)

Module FloatFacts.
Import Float.

Lemma Qltb_lt (a b : Q) : Qltb a b = true <-> (a < b)%Q.
Proof.
  unfold Qltb. rewrite negb_true_iff, <- not_true_iff_false, Qle_bool_iff.
  split; [apply Qnot_le_lt | apply Qlt_not_le].
Qed.

Lemma Qltb_ge (a b : Q) : Qltb a b = false <-> (b <= a)%Q.
Proof.
  unfold Qltb. rewrite negb_false_iff. apply Qle_bool_iff.
Qed.

Lemma Qsign_spec (q : Q) :
  match Qsign q with
  | Eq => (q == 0)%Q
  | Lt => (q < 0)%Q
  | Gt => (0 < q)%Q
  end.
Proof.
  unfold Qsign. destruct q as [n d]; simpl.
  destruct (Z.compare_spec n 0) as [H|H|H];
    unfold Qeq, Qlt; simpl; lia.
Qed.

Lemma Qsign_compat (a b : Q) : (a == b)%Q -> Qsign a = Qsign b.
Proof.
  intros E. pose proof (Qsign_spec a) as Ha. pose proof (Qsign_spec b) as Hb.
  destruct (Qsign a), (Qsign b); try reflexivity; rewrite E in Ha; lra.
Qed.

(** *** Rounding to the nearest integer *)






(** *** [round(x, ndigits)] *)





(** *** Values up to the representation of a rational *)

Lemma eqv_refl (x : float) : eqv x x.
Proof. destruct x; simpl; auto. reflexivity. Qed.

Lemma eqv_sym (x y : float) : eqv x y -> eqv y x.
Proof. destruct x, y; simpl; auto. intros E. now symmetry. Qed.

Lemma eqv_trans (x y z : float) : eqv x y -> eqv y z -> eqv x z.
Proof.
  destruct x, y, z; simpl; auto; try contradiction.
  intros E1 E2. now rewrite E1.
Qed.


Lemma scale_inf_eqv (i : float) (a b : Q) :
  (a == b)%Q -> scale_inf i (Qsign a) = scale_inf i (Qsign b).
Proof. intros E. now rewrite (Qsign_compat a b E). Qed.



Lemma mul_eqv (x x' y y' : float) :
  eqv x x' -> eqv y y' -> eqv (mul x y) (mul x' y').
Proof.
  destruct x, x', y, y'; simpl; try contradiction; auto;
    try (intros E1 E2; rewrite ?(Qsign_compat _ _ E1), ?(Qsign_compat _ _ E2);
         apply eqv_refl).
  intros E1 E2. rewrite !Qred_correct. now rewrite E1, E2.
Qed.






(** *** Order *)

Lemma leb_Fin (a b : Q) : leb (Fin a) (Fin b) = true <-> (a <= b)%Q.
Proof. simpl. apply Qle_bool_iff. Qed.

Lemma ltb_Fin (a b : Q) : ltb (Fin a) (Fin b) = true <-> (a < b)%Q.
Proof. simpl. apply Qltb_lt. Qed.


End FloatFacts.

(** ** pandas operations *)

Module PandasFacts.
Import Float FloatFacts.

Lemma getitem_setitem (df : DataFrame) (k k' : string) (s : Series) :
  getitem (setitem df k s) k' = if decide (k = k') then Ok s else getitem df k'.
Proof.
  unfold getitem, setitem; simpl. rewrite lookup_insert.
  destruct (decide (k = k')); reflexivity.
Qed.

Lemma getitem_setitem_eq (df : DataFrame) (k : string) (s : Series) :
  getitem (setitem df k s) k = Ok s.
Proof. rewrite getitem_setitem. now rewrite decide_True. Qed.

Lemma getitem_setitem_ne (df : DataFrame) (k k' : string) (s : Series) :
  k <> k' -> getitem (setitem df k s) k' = getitem df k'.
Proof. intros H. rewrite getitem_setitem. now rewrite decide_False. Qed.

Lemma len_setitem (df : DataFrame) (k : string) (s : Series) :
  len (setitem df k s) = len df.
Proof. reflexivity. Qed.

Lemma getitem_Ok (df : DataFrame) (k : string) (s : Series) :
  getitem df k = Ok s <-> columns df !! k = Some s.
Proof.
  unfold getitem. destruct (columns df !! k); split; intros H;
    try discriminate; congruence.
Qed.

Lemma iloc_last_nonempty (s : Series) :
  (0 < length s)%nat -> exists x, iloc_last s = Ok x.
Proof.
  intros H. unfold iloc_last. destruct (last s) eqn:E; [eauto | ].
  apply last_None in E. subst. simpl in H. lia.
Qed.

Lemma rolling_length (w : nat) (agg : Series -> float) (s : Series) :
  length (rolling w agg s) = length s.
Proof. unfold rolling. now rewrite length_map, length_seq. Qed.

Lemma dropna_finite (s : Series) :
  forallb isfinite s = true -> dropna s = s.
Proof.
  unfold dropna. induction s as [ | x t IH]; simpl; [reflexivity | ].
  intros H. apply andb_true_iff in H as [Hx Ht].
  destruct x; try discriminate. simpl. now rewrite IH.
Qed.

Lemma window_last (w : nat) (s : Series) :
  (0 < length s)%nat -> window w (length s - 1) s = trailing w s.
Proof.
  intros H. unfold window, trailing.
  replace (S (length s - 1)) with (length s) by lia.
  now rewrite firstn_all.
Qed.

Lemma trailing_length (w : nat) (s : Series) :
  (w <= length s)%nat -> length (trailing w s) = w.
Proof. intros H. unfold trailing. rewrite length_drop. lia. Qed.

Lemma forallb_trailing (P : float -> bool) (w : nat) (s : Series) :
  forallb P s = true -> forallb P (trailing w s) = true.
Proof.
  intros H. unfold trailing. rewrite forallb_forall in *.
  intros x Hx. apply H. rewrite <- list_elem_of_In in *.
  eapply subseteq_drop; eauto.
Qed.

(** The last entry of a rolling aggregate is the aggregate of the last
    [w] entries of the series, provided they are all there and finite. *)
Lemma rolling_last (w : nat) (agg : Series -> float) (s : Series) :
  (0 < w <= length s)%nat ->
  forallb isfinite (trailing w s) = true ->
  iloc_last (rolling w agg s) = Ok (agg (trailing w s)).
Proof.
  intros Hw Hfin. unfold iloc_last, rolling.
  assert (Hseq : seq 0 (length s) = seq 0 (length s - 1) ++ [(length s - 1)%nat]).
  { replace (length s) with (length s - 1 + 1)%nat at 1 by lia.
    now rewrite seq_app. }
  rewrite Hseq, map_app. simpl. rewrite last_snoc.
  rewrite window_last by lia.
  rewrite dropna_finite by assumption.
  rewrite trailing_length by lia.
  now rewrite Nat.ltb_irrefl.
Qed.

Lemma min2_cases (x y : float) : min2 x y = x \/ min2 x y = y.
Proof. unfold min2. destruct (ltb y x); auto. Qed.

Lemma max2_cases (x y : float) : max2 x y = x \/ max2 x y = y.
Proof. unfold max2. destruct (ltb x y); auto. Qed.

Lemma fold_min2_spec (t : Series) (x : Q) :
  forallb isfinite t = true ->
  exists m, fold_left min2 t (Fin x) = Fin m /\
            Fin m ∈ Fin x :: t /\
            forall q, Fin q ∈ Fin x :: t -> (m <= q)%Q.
Proof.
  revert x. induction t as [ | y t IH]; intros x Hfin; simpl in *.
  - exists x. split; [reflexivity | ]. split; [left | ].
    intros q Hq. apply list_elem_of_singleton in Hq. injection Hq as ->. lra.
  - apply andb_true_iff in Hfin as [Hy Ht]. destruct y as [ | |y| ]; try discriminate.
    unfold min2 at 2. simpl ltb. destruct (Qltb y x) eqn:E.
    + apply Qltb_lt in E. destruct (IH y Ht) as (m & Hm & Hin & Hle).
      exists m. split; [exact Hm | ]. split.
      * right. exact Hin.
      * intros q Hq. apply elem_of_cons in Hq as [Hq | Hq].
        -- injection Hq as ->. specialize (Hle y (list_elem_of_here _ _)). lra.
        -- apply Hle. exact Hq.
    + apply Qltb_ge in E. destruct (IH x Ht) as (m & Hm & Hin & Hle).
      exists m. split; [exact Hm | ]. split.
      * apply elem_of_cons in Hin as [Hin | Hin]; [rewrite Hin; left | do 2 right; exact Hin].
      * intros q Hq. apply elem_of_cons in Hq as [Hq | Hq].
        -- apply Hle. rewrite Hq. left.
        -- apply elem_of_cons in Hq as [Hq | Hq].
           ++ injection Hq as ->. specialize (Hle x (list_elem_of_here _ _)). lra.
           ++ apply Hle. right. exact Hq.
Qed.

Lemma fold_max2_spec (t : Series) (x : Q) :
  forallb isfinite t = true ->
  exists m, fold_left max2 t (Fin x) = Fin m /\
            Fin m ∈ Fin x :: t /\
            forall q, Fin q ∈ Fin x :: t -> (q <= m)%Q.
Proof.
  revert x. induction t as [ | y t IH]; intros x Hfin; simpl in *.
  - exists x. split; [reflexivity | ]. split; [left | ].
    intros q Hq. apply list_elem_of_singleton in Hq. injection Hq as ->. lra.
  - apply andb_true_iff in Hfin as [Hy Ht]. destruct y as [ | |y| ]; try discriminate.
    unfold max2 at 2. simpl ltb. destruct (Qltb x y) eqn:E.
    + apply Qltb_lt in E. destruct (IH y Ht) as (m & Hm & Hin & Hle).
      exists m. split; [exact Hm | ]. split.
      * right. exact Hin.
      * intros q Hq. apply elem_of_cons in Hq as [Hq | Hq].
        -- injection Hq as ->. specialize (Hle y (list_elem_of_here _ _)). lra.
        -- apply Hle. exact Hq.
    + apply Qltb_ge in E. destruct (IH x Ht) as (m & Hm & Hin & Hle).
      exists m. split; [exact Hm | ]. split.
      * apply elem_of_cons in Hin as [Hin | Hin]; [rewrite Hin; left | do 2 right; exact Hin].
      * intros q Hq. apply elem_of_cons in Hq as [Hq | Hq].
        -- apply Hle. rewrite Hq. left.
        -- apply elem_of_cons in Hq as [Hq | Hq].
           ++ injection Hq as ->. specialize (Hle x (list_elem_of_here _ _)). lra.
           ++ apply Hle. right. exact Hq.
Qed.

(** The minimum of a non-empty series of finite values is one of them and
    lies below all of them. *)
Lemma series_min_spec (s : Series) :
  (0 < length s)%nat -> forallb isfinite s = true ->
  exists m, series_min s = Fin m /\ Fin m ∈ s /\ forall q, Fin q ∈ s -> (m <= q)%Q.
Proof.
  destruct s as [ | x t]; simpl; [lia | ]. intros _ H.
  apply andb_true_iff in H as [Hx Ht]. destruct x as [ | |x| ]; try discriminate.
  now apply fold_min2_spec.
Qed.

Lemma series_max_spec (s : Series) :
  (0 < length s)%nat -> forallb isfinite s = true ->
  exists m, series_max s = Fin m /\ Fin m ∈ s /\ forall q, Fin q ∈ s -> (q <= m)%Q.
Proof.
  destruct s as [ | x t]; simpl; [lia | ]. intros _ H.
  apply andb_true_iff in H as [Hx Ht]. destruct x as [ | |x| ]; try discriminate.
  now apply fold_max2_spec.
Qed.

Lemma trailing_last (w : nat) (s : Series) :
  (0 < w)%nat -> last (trailing w s) = last s.
Proof.
  intros Hw. unfold trailing. rewrite !last_lookup, lookup_drop, length_drop.
  destruct (length s) as [ | n] eqn:E; [ | f_equal; lia].
  apply nil_length_inv in E. subst. reflexivity.
Qed.

(** What [candle_frame] gives for each of the three columns. *)
Lemma candle_frame_column (df : DataFrame) (k : string) :
  candle_frame df = true -> k ∈ candle_columns ->
  exists s, getitem df k = Ok s /\ length s = len df /\ forallb isfinite s = true.
Proof.
  unfold candle_frame. rewrite forallb_forall. intros H Hk.
  specialize (H k (proj1 (list_elem_of_In _ _) Hk)). unfold getitem.
  destruct (columns df !! k) as [s | ]; [ | discriminate].
  apply andb_true_iff in H as [Hl Hf]. apply Nat.eqb_eq in Hl. eauto.
Qed.

End PandasFacts.

(** ** Range detector *)

Module RangeDetector.
Import Float FloatFacts PandasFacts.

(** C4 (as amended): on a frame of at least 50 candles, support is the
    minimum of the lows and resistance the maximum of the highs over the
    last 50 candles, a window that ends with the last candle of the
    series; the buffer is 0.005 * (resistance - support). *)
Theorem support_resistance_window (df : DataFrame) :
  candle_frame df = true -> (50 <= len df)%nat ->
  exists (lows highs : Series) (s r : Q),
    getitem df "low" = Ok lows /\ getitem df "high" = Ok highs /\
    support_level df = Ok (Fin s) /\ resistance_level df = Ok (Fin r) /\
    length (trailing 50 lows) = 50%nat /\ last (trailing 50 lows) = last lows /\
    length (trailing 50 highs) = 50%nat /\ last (trailing 50 highs) = last highs /\
    Fin s ∈ trailing 50 lows /\ (forall q, Fin q ∈ trailing 50 lows -> (s <= q)%Q) /\
    Fin r ∈ trailing 50 highs /\ (forall q, Fin q ∈ trailing 50 highs -> (q <= r)%Q) /\
    eqv (buffer_of (Fin s) (Fin r)) (Fin ((5 # 1000) * (r - s))).
Proof.
  intros Hcf Hlen.
  destruct (candle_frame_column df "low" Hcf) as (lows & Hlow & Hll & Hlf);
    [unfold candle_columns; set_solver | ].
  destruct (candle_frame_column df "high" Hcf) as (highs & Hhigh & Hhl & Hhf);
    [unfold candle_columns; set_solver | ].
  pose proof (forallb_trailing _ 50 _ Hlf) as Hlt.
  pose proof (forallb_trailing _ 50 _ Hhf) as Hht.
  assert (Hl50 : length (trailing 50 lows) = 50%nat) by (apply trailing_length; lia).
  assert (Hh50 : length (trailing 50 highs) = 50%nat) by (apply trailing_length; lia).
  destruct (series_min_spec (trailing 50 lows)) as (s & Hs & Hsin & Hsle);
    [lia | assumption | ].
  destruct (series_max_spec (trailing 50 highs)) as (r & Hr & Hrin & Hrle);
    [lia | assumption | ].
  exists lows, highs, s, r.
  repeat split; try assumption; try (apply trailing_last; lia).
  - unfold support_level. rewrite Hlow. simpl. unfold rolling_min.
    rewrite rolling_last by (assumption || lia). now rewrite Hs.
  - unfold resistance_level. rewrite Hhigh. simpl. unfold rolling_max.
    rewrite rolling_last by (assumption || lia). now rewrite Hr.
  - unfold buffer_of. simpl. rewrite !Qred_correct. reflexivity.
Qed.

Lemma support_resistance_window_witness :
  exists (lows highs : Series) (s r : Q),
    getitem (candles rising 100) "low" = Ok lows /\
    getitem (candles rising 100) "high" = Ok highs /\
    support_level (candles rising 100) = Ok (Fin s) /\
    resistance_level (candles rising 100) = Ok (Fin r) /\
    length (trailing 50 lows) = 50%nat /\ last (trailing 50 lows) = last lows /\
    length (trailing 50 highs) = 50%nat /\ last (trailing 50 highs) = last highs /\
    Fin s ∈ trailing 50 lows /\ (forall q, Fin q ∈ trailing 50 lows -> (s <= q)%Q) /\
    Fin r ∈ trailing 50 highs /\ (forall q, Fin q ∈ trailing 50 highs -> (q <= r)%Q) /\
    eqv (buffer_of (Fin s) (Fin r)) (Fin ((5 # 1000) * (r - s))).
Proof.
  apply (support_resistance_window (candles rising 100)).
  - vm_compute. reflexivity.
  - vm_compute. lia.
Defined.

(** C4 as stated fails: with 51 candles whose last low is the lowest, the
    support the code computes is that last low, while the window that
    ends at the second-to-last computed point does not see it. *)
Lemma window_second_to_last_counterexample :
  (50 <= len (candles dip 51))%nat /\
  support_level (candles dip 51) = Ok (Fin 1) /\
  spec_support_level (candles dip 51) = Ok (Fin 10) /\
  support_level (candles dip 51) <> spec_support_level (candles dip 51).
Proof.
  assert (H1 : support_level (candles dip 51) = Ok (Fin 1)) by (vm_compute; reflexivity).
  assert (H2 : spec_support_level (candles dip 51) = Ok (Fin 10)) by (vm_compute; reflexivity).
  split; [vm_compute; lia | ]. split; [exact H1 | ]. split; [exact H2 | ].
  rewrite H1, H2. discriminate.
Qed.

End RangeDetector.

(** ** The reference library meets the contract *)

Module ReferenceFacts.
Import Float PandasFacts Reference.

Lemma ema_from_length (factor prev : float) (s : Series) :
  length (ema_from factor prev s) = length s.
Proof.
  revert prev. induction s as [ | x t IH]; intros prev; simpl; [reflexivity | ].
  now rewrite IH.
Qed.

Lemma ema_length (s : Series) (n : nat) :
  (0 < n <= length s)%nat -> length (ema s n) = length s.
Proof.
  intros H. unfold ema.
  rewrite (proj2 (Nat.ltb_ge _ _) (proj2 H)).
  rewrite length_app, length_replicate. simpl.
  rewrite ema_from_length, length_drop. lia.
Qed.

Lemma zip3_with_length {A B C D : Type} (f : A -> B -> C -> D)
    (a : list A) (b : list B) (c : list C) :
  length a = length b -> (length a <= length c)%nat ->
  length (zip3_with f a b c) = length a.
Proof.
  revert b c. induction a as [ | x a IH]; intros [ | y b] [ | z c]; simpl;
    intros H1 H2; try reflexivity; try discriminate; try lia.
  rewrite IH; [reflexivity | lia | lia].
Qed.

Lemma true_range_length (h l c : Series) :
  length h = length c -> length l = length c ->
  length (true_range h l c) = length c.
Proof.
  intros Hh Hl. unfold true_range.
  destruct h as [ | x h], l as [ | y l]; simpl in *; try lia.
  rewrite zip3_with_length; lia.
Qed.

Lemma atr_length (h l c : Series) (n : nat) :
  (0 < n <= length c)%nat -> length h = length c -> length l = length c ->
  length (atr h l c n) = length c.
Proof.
  intros _ Hh Hl. unfold atr. rewrite rolling_length.
  now apply true_range_length.
Qed.

Lemma contract : TaLibContract lib.
Proof.
  split; simpl.
  - exact ema_length.
  - exact atr_length.
Qed.

End ReferenceFacts.

(** ** Trend classifier *)

Module TrendClassifier.
Import Float FloatFacts PandasFacts.

Section WithLibrary.

Context {L : TaLib}.

Lemma determine_trend_short (data : DataFrame) :
    (len data < 50)%nat -> determine_trend data = Ok ("N/A"%string, data).
Proof.
    intros H. unfold determine_trend.
    now rewrite (proj2 (Nat.ltb_lt _ _) H).
Qed.

    (** How a call on at least 50 rows runs, whatever the library. *)
Lemma determine_trend_run (data : DataFrame) (closes : Series) :
    (50 <= len data)%nat -> getitem data "close" = Ok closes ->
    determine_trend data =
      (ema20 <~ iloc_last (ta_ema closes 20);;
       ema50 <~ iloc_last (ta_ema closes 50);;
       Ok (if gtb ema20 ema50 then "Up trend"%string else "Down trend"%string,
           setitem (setitem data "EMA20" (ta_ema closes 20))
                   "EMA50" (ta_ema closes 50))).
Proof.
    intros Hlen Hclose. unfold determine_trend.
    rewrite (proj2 (Nat.ltb_ge _ _) Hlen), Hclose. simpl.
    rewrite getitem_setitem_ne, Hclose by discriminate. simpl.
    rewrite getitem_setitem_ne, getitem_setitem_eq by discriminate. simpl.
    destruct (iloc_last (ta_ema closes 20)); simpl; [ | reflexivity].
    now rewrite getitem_setitem_eq.
Qed.

Lemma determine_trend_missing_close (data : DataFrame) :
    (50 <= len data)%nat -> columns data !! "close"%string = None ->
    determine_trend data = Raise (KeyError "close").
Proof.
    intros Hlen Hclose. unfold determine_trend, getitem.
    now rewrite (proj2 (Nat.ltb_ge _ _) Hlen), Hclose.
Qed.

Context {C : TaLibContract L}.

    (** C5: on fewer than 50 candles the classifier returns "N/A"; on at
    least 50 it returns "Up trend" exactly when the most recent
    EMA(close, 20) is strictly greater than the most recent
    EMA(close, 50), and "Down trend" otherwise. *)
Theorem trend_label_rule (data : DataFrame) :
  ((len data < 50)%nat -> trend_of data = Ok "N/A"%string) /\
  (forall closes : Series,
     (50 <= len data)%nat ->
     getitem data "close" = Ok closes -> length closes = len data ->
     exists (ema20 ema50 : float) (label : string),
       iloc_last (ta_ema closes 20) = Ok ema20 /\
       iloc_last (ta_ema closes 50) = Ok ema50 /\
       trend_of data = Ok label /\
       (label = "Up trend"%string <-> gtb ema20 ema50 = true) /\
       (label = "Down trend"%string <-> gtb ema20 ema50 = false) /\
       label <> "N/A"%string).
Proof.
  split.
  - intros Hshort. unfold trend_of. now rewrite determine_trend_short.
  - intros closes Hlong Hclose Hlen.
    destruct (iloc_last_nonempty (ta_ema closes 20)) as [e20 H20].
    { rewrite ta_ema_length; lia. }
    destruct (iloc_last_nonempty (ta_ema closes 50)) as [e50 H50].
    { rewrite ta_ema_length; lia. }
    exists e20, e50, (if gtb e20 e50 then "Up trend"%string else "Down trend"%string).
    split; [exact H20 | ]. split; [exact H50 | ]. split.
    + unfold trend_of. rewrite (determine_trend_run data closes Hlong Hclose).
      rewrite H20, H50. reflexivity.
    + destruct (gtb e20 e50); repeat split; intros; congruence.
Qed.

End WithLibrary.

Lemma trend_label_rule_witness :
  trend_of (L := Reference.lib) (candles rising 49) = Ok "N/A"%string /\
  exists (ema20 ema50 : float) (label : string),
    iloc_last (Reference.ema (column rising 100) 20) = Ok ema20 /\
    iloc_last (Reference.ema (column rising 100) 50) = Ok ema50 /\
    trend_of (L := Reference.lib) (candles rising 100) = Ok label /\
    (label = "Up trend"%string <-> gtb ema20 ema50 = true) /\
    (label = "Down trend"%string <-> gtb ema20 ema50 = false) /\
    label <> "N/A"%string.
Proof.
  split.
  - apply (proj1 (trend_label_rule (L := Reference.lib)
                    (C := ReferenceFacts.contract) (candles rising 49))).
    vm_compute. lia.
  - apply (proj2 (trend_label_rule (L := Reference.lib)
                    (C := ReferenceFacts.contract) (candles rising 100))).
    + vm_compute. lia.
    + vm_compute. reflexivity.
    + vm_compute. reflexivity.
Defined.

Example trend_up :
  trend_of (L := Reference.lib) (candles rising 100) = Ok "Up trend"%string.
Proof. vm_compute. reflexivity. Qed.

Example trend_down :
  trend_of (L := Reference.lib) (candles falling 100) = Ok "Down trend"%string.
Proof. vm_compute. reflexivity. Qed.

End TrendClassifier.

(** ** Win-rate estimator *)

Module WinRate.
Import Float FloatFacts PandasFacts.

Lemma Qsign_pos (q : Q) : (0 < q)%Q -> Qsign q = Gt.
Proof.
  intros H. pose proof (Qsign_spec q) as S. destruct (Qsign q); [ | | reflexivity]; lra.
Qed.










End WinRate.

(** ** The frames the indicators are attached to *)

Module Frames.
Import Float FloatFacts PandasFacts TrendClassifier.

Lemma bind_Ok {A B : Type} (m : Result A) (k : A -> Result B) (b : B) :
  bind m k = Ok b <-> exists a, m = Ok a /\ k a = Ok b.
Proof.
  destruct m as [a | e]; simpl; split.
  - eauto.
  - intros (a' & [= <-] & H). exact H.
  - discriminate.
  - intros (a' & [=] & _).
Qed.

Lemma hlc_of_Ok (df : DataFrame) (h l c : Series) :
  hlc_of df = Ok (h, l, c) <->
  getitem df "high" = Ok h /\ getitem df "low" = Ok l /\ getitem df "close" = Ok c.
Proof.
  unfold hlc_of.
  destruct (getitem df "high"), (getitem df "low"), (getitem df "close");
    simpl; split; try discriminate; try (intros (? & ? & ?); discriminate).
  - intros [= -> -> ->]. auto.
  - intros ([= ->] & [= ->] & [= ->]). reflexivity.
Qed.

Section WithLibrary.

Context {L : TaLib}.

Lemma attach_atr_hlc (df : DataFrame) :
    attach_atr df =
      (hlc <~ hlc_of df;;
       let '(high, low, close) := hlc in
       Ok (setitem df "ATR" (ta_atr high low close 14))).
Proof.
    unfold attach_atr, hlc_of.
    destruct (getitem df "high"), (getitem df "low"), (getitem df "close");
      reflexivity.
Qed.

    (** The frame after [df['ATR'] = ...]: same rows, every other column
        untouched, the indicator stored under "ATR". *)
Lemma attach_atr_frame (df df' : DataFrame) :
    attach_atr df = Ok df' ->
    index df' = index df /\
    (forall k, k <> "ATR"%string -> columns df' !! k = columns df !! k) /\
    exists h l c, hlc_of df = Ok (h, l, c) /\
                  columns df' !! "ATR"%string = Some (ta_atr h l c 14).
Proof.
    rewrite attach_atr_hlc. destruct (hlc_of df) as [[[h l] c] | e]; simpl;
      [ | discriminate].
    intros [= <-]. simpl. split; [reflexivity | ]. split.
    - intros k Hk. now rewrite lookup_insert_ne.
    - exists h, l, c. split; [reflexivity | ]. now rewrite lookup_insert_eq.
Qed.

    (** The frame after [determine_trend]: same rows, every column but
        "EMA20" and "EMA50" untouched; on at least 50 rows both are set. *)
Lemma determine_trend_frame (data data' : DataFrame) (label : string) :
    determine_trend data = Ok (label, data') ->
    index data' = index data /\
    (forall k, k <> "EMA20"%string -> k <> "EMA50"%string ->
               columns data' !! k = columns data !! k) /\
    ((len data < 50)%nat -> data' = data) /\
    ((50 <= len data)%nat ->
     exists closes, getitem data "close" = Ok closes /\
                    columns data' !! "EMA20"%string = Some (ta_ema closes 20) /\
                    columns data' !! "EMA50"%string = Some (ta_ema closes 50)).
Proof.
    intros H. destruct (Nat.lt_ge_cases (len data) 50) as [Hs | Hl].
    - rewrite determine_trend_short in H by assumption. injection H as <- <-.
      repeat split; auto. lia.
    - destruct (getitem data "close") as [closes | e] eqn:Hc.
      + rewrite (determine_trend_run data closes Hl Hc) in H.
        destruct (iloc_last (ta_ema closes 20)); simpl in H; [ | discriminate].
        destruct (iloc_last (ta_ema closes 50)); simpl in H; [ | discriminate].
        injection H as _ <-. simpl. split; [reflexivity | ]. split; [ | split].
        * intros k H20 H50. now rewrite !lookup_insert_ne.
        * lia.
        * intros _. exists closes. split; [reflexivity | ].
          rewrite lookup_insert_ne, !lookup_insert_eq by discriminate. auto.
      + unfold determine_trend in H.
        rewrite (proj2 (Nat.ltb_ge _ _) Hl), Hc in H. discriminate.
Qed.

    (** C8 (as amended): attaching the ATR and classifying the trend leave
        the rows and the candle columns of the series as they were, and
        every other column but the three the code writes; the indicators
        are stored in the frame itself, under "ATR", "EMA20" and "EMA50". *)
Theorem indicators_keep_candles (df df1 df2 : DataFrame) (label : string) :
    attach_atr df = Ok df1 -> determine_trend df1 = Ok (label, df2) ->
    index df2 = index df /\
    (forall k, k ∈ ["open"; "high"; "low"; "close"]%string ->
               columns df2 !! k = columns df !! k) /\
    (forall k, k ∉ ["ATR"; "EMA20"; "EMA50"]%string ->
               columns df2 !! k = columns df !! k) /\
    is_Some (columns df2 !! "ATR"%string) /\
    ((50 <= len df)%nat ->
     is_Some (columns df2 !! "EMA20"%string) /\
     is_Some (columns df2 !! "EMA50"%string)).
Proof.
    intros Ha Ht.
    destruct (attach_atr_frame _ _ Ha) as (Hi1 & Hk1 & h & l & c & _ & Hatr).
    destruct (determine_trend_frame _ _ _ Ht) as (Hi2 & Hk2 & _ & Hema).
    assert (Hother : forall k, k ∉ ["ATR"; "EMA20"; "EMA50"]%string ->
                               columns df2 !! k = columns df !! k).
    { intros k Hk. rewrite Hk2, Hk1; [reflexivity | | | ];
        intros ->; apply Hk; set_solver. }
    split; [congruence | ]. split; [ | split; [exact Hother | split]].
    - intros k Hk. apply Hother. intros Hin.
      repeat (apply elem_of_cons in Hk as [-> | Hk]);
        try (apply elem_of_nil in Hk; contradiction);
        repeat (apply elem_of_cons in Hin as [Hin | Hin]; [discriminate | ]);
        apply elem_of_nil in Hin; contradiction.
    - rewrite Hk2, Hatr by discriminate. eauto.
    - intros Hlen. destruct Hema as (closes & _ & H20 & H50).
      + unfold len in *. now rewrite Hi1.
      + rewrite H20, H50. eauto.
Qed.

End WithLibrary.

Lemma indicators_keep_candles_witness :
  exists df1 df2 label,
    attach_atr (L := Reference.lib) (candles rising 100) = Ok df1 /\
    determine_trend (L := Reference.lib) df1 = Ok (label, df2) /\
    index df2 = index (candles rising 100) /\
    (forall k, k ∈ ["open"; "high"; "low"; "close"]%string ->
               columns df2 !! k = columns (candles rising 100) !! k) /\
    (forall k, k ∉ ["ATR"; "EMA20"; "EMA50"]%string ->
               columns df2 !! k = columns (candles rising 100) !! k) /\
    is_Some (columns df2 !! "ATR"%string) /\
    ((50 <= len (candles rising 100))%nat ->
     is_Some (columns df2 !! "EMA20"%string) /\
     is_Some (columns df2 !! "EMA50"%string)).
Proof.
  destruct (attach_atr (L := Reference.lib) (candles rising 100)) as [df1 | e] eqn:Ha;
    [ | vm_compute in Ha; discriminate].
  destruct (determine_trend (L := Reference.lib) df1) as [[label df2] | e] eqn:Ht.
  - exists df1, df2, label. split; [reflexivity | ]. split; [exact Ht | ].
    exact (indicators_keep_candles (L := Reference.lib) _ _ _ _ Ha Ht).
  - exfalso. vm_compute in Ha. injection Ha as <-. vm_compute in Ht. discriminate.
Defined.

(** C8 as stated fails: a call of [determine_trend] on 50 candles changes
    the frame it is given, which then holds a column "EMA20" it did not
    hold before. *)
Lemma determine_trend_mutates_counterexample :
  exists label data',
    determine_trend (L := Reference.lib) (candles rising 50) = Ok (label, data') /\
    columns (candles rising 50) !! "EMA20"%string = None /\
    is_Some (columns data' !! "EMA20"%string) /\
    data' <> candles rising 50.
Proof.
  destruct (determine_trend (L := Reference.lib) (candles rising 50))
    as [[label data'] | e] eqn:Ht; [ | vm_compute in Ht; discriminate].
  exists label, data'. split; [reflexivity | ].
  assert (Hnone : columns (candles rising 50) !! "EMA20"%string = None)
    by (vm_compute; reflexivity).
  destruct (determine_trend_frame _ _ _ Ht) as (_ & _ & _ & Hema).
  destruct Hema as (closes & _ & H20 & _); [vm_compute; lia | ].
  split; [exact Hnone | ]. split; [rewrite H20; eauto | ].
  intros ->. rewrite Hnone in H20. discriminate.
Qed.

End Frames.

(** ** The analysis as a function of the candles *)

Module Engine.
Import Float FloatFacts PandasFacts TrendClassifier Frames.

Lemma support_level_setitem (df : DataFrame) (k : string) (s : Series) :
  k <> "low"%string -> support_level (setitem df k s) = support_level df.
Proof. intros H. unfold support_level. now rewrite getitem_setitem_ne. Qed.

Lemma resistance_level_setitem (df : DataFrame) (k : string) (s : Series) :
  k <> "high"%string -> resistance_level (setitem df k s) = resistance_level df.
Proof. intros H. unfold resistance_level. now rewrite getitem_setitem_ne. Qed.

Section WithLibrary.

Context {L : TaLib}.

Lemma calculate_winrate_ext (d e : DataFrame) :
    len d = len e -> getitem d "close" = getitem e "close" ->
    calculate_winrate d = calculate_winrate e.
Proof. intros Hl Hc. unfold calculate_winrate. now rewrite Hl, Hc. Qed.

    (** The label is a function of the row count and of the closes. *)
Lemma trend_of_run (data : DataFrame) :
    trend_of data =
      if (len data <? 50)%nat then Ok "N/A"%string
      else
        closes <~ getitem data "close";;
        ema20 <~ iloc_last (ta_ema closes 20);;
        ema50 <~ iloc_last (ta_ema closes 50);;
        Ok (if gtb ema20 ema50 then "Up trend"%string else "Down trend"%string).
Proof.
    unfold trend_of. destruct (len data <? 50)%nat eqn:E.
    - apply Nat.ltb_lt in E. now rewrite determine_trend_short.
    - apply Nat.ltb_ge in E. destruct (getitem data "close") as [closes | e] eqn:Hc.
      + rewrite (determine_trend_run data closes E Hc). simpl.
        destruct (iloc_last (ta_ema closes 20)); simpl; [ | reflexivity].
        destruct (iloc_last (ta_ema closes 50)); reflexivity.
      + unfold determine_trend. rewrite (proj2 (Nat.ltb_ge _ _) E), Hc. reflexivity.
Qed.

Lemma trend_of_ext (d e : DataFrame) :
    len d = len e -> getitem d "close" = getitem e "close" ->
    trend_of d = trend_of e.
Proof. intros Hl Hc. now rewrite !trend_of_run, Hl, Hc. Qed.

    (** What a successful call of [determine_trend] hands back, in terms
        of the frame it was given. *)
Lemma determine_trend_Ok (data data' : DataFrame) (label : string) :
    determine_trend data = Ok (label, data') ->
    trend_of data = Ok label /\ len data' = len data /\
    getitem data' "close" = getitem data "close".
Proof.
    intros H. destruct (determine_trend_frame _ _ _ H) as (Hi & Hk & _ & _).
    split; [unfold trend_of; now rewrite H | ]. split.
    - unfold len. now rewrite Hi.
    - unfold getitem. now rewrite Hk.
Qed.

Lemma determine_trend_Raise (data : DataFrame) (e : exn) :
    determine_trend data = Raise e -> trend_of data = Raise e.
Proof. intros H. unfold trend_of. now rewrite H. Qed.

    (** The analysis of three frames reads nothing but their candles: the
        columns it attaches on the way do not change what it computes. *)
Lemma analyze_frames_candles (symbol : string) (d15 d5 d1 : DataFrame) :
    analyze_frames symbol d15 d5 d1 =
      (_ <~ hlc_of d5;;
       _ <~ hlc_of d15;;
       atr_sl <~ latest_atr d5;;
       atr_tp <~ latest_atr d15;;
       support <~ support_level d15;;
       resistance <~ resistance_level d15;;
       last_close <~ last_close_of d1;;
       label <~ trend_of d15;;
       outcome symbol d15 atr_sl atr_tp support resistance last_close label).
Proof.
    unfold analyze_frames, latest_atr. rewrite !attach_atr_hlc.
    destruct (hlc_of d5) as [[[h5 l5] c5] | e]; cbn [bind]; [ | reflexivity].
    destruct (hlc_of d15) as [[[h15 l15] c15] | e] eqn:H15; cbn [bind]; [ | reflexivity].
    rewrite !getitem_setitem_eq. cbn [bind].
    destruct (iloc_last (ta_atr h5 l5 c5 14)) as [atr_sl | e]; cbn [bind]; [ | reflexivity].
    destruct (iloc_last (ta_atr h15 l15 c15 14)) as [atr_tp | e]; cbn [bind]; [ | reflexivity].
    rewrite support_level_setitem, resistance_level_setitem by discriminate.
    destruct (support_level d15) as [support | e]; cbn [bind]; [ | reflexivity].
    destruct (resistance_level d15) as [resistance | e]; cbn [bind]; [ | reflexivity].
    unfold last_close_of.
    destruct (getitem d1 "close") as [close_1m | e]; cbn [bind]; [ | reflexivity].
    destruct (iloc_last close_1m) as [last_close | e]; cbn [bind]; [ | reflexivity].
    set (d15' := setitem d15 "ATR" (ta_atr h15 l15 c15 14)).
    assert (Ht : trend_of d15' = trend_of d15).
    { apply trend_of_ext; [reflexivity | ]. unfold d15'.
      now rewrite getitem_setitem_ne. }
    destruct (determine_trend d15') as [[label d15''] | e] eqn:Hd; cbn [bind].
    - apply determine_trend_Ok in Hd as (Hl & Hlen & Hc).
      rewrite <- Ht, Hl. cbn [bind]. unfold outcome.
      destruct (detect_signal _ _ _ _ _ _) as [[[direction entry] sl] | ];
        [ | reflexivity].
      rewrite (calculate_winrate_ext d15'' d15); [reflexivity | | ].
      + now rewrite Hlen.
      + rewrite Hc. unfold d15'. now rewrite getitem_setitem_ne.
    - apply determine_trend_Raise in Hd. rewrite <- Ht, Hd. reflexivity.
Qed.

End WithLibrary.

End Engine.

(** ** Length thresholds and the breakout rule *)

Module Signals.
Import Float FloatFacts PandasFacts TrendClassifier Frames Engine WinRate.

Lemma timeframes :
  TIMEFRAMES !!! "analysis"%string = "15m"%string /\
  TIMEFRAMES !!! "sl"%string = "5m"%string /\
  TIMEFRAMES !!! "entry"%string = "1m"%string.
Proof. repeat split; vm_compute; reflexivity. Qed.

Section WithLibrary.

Context {L : TaLib}.
Variable get_deriv_data : string -> string -> option DataFrame.

(** The [try] block, by the three length checks. *)
Lemma analysis_cases (symbol : string) :
  analysis get_deriv_data symbol =
    if too_short 100 (get_deriv_data symbol "15m") then Ok (insufficient "15m" symbol)
    else if too_short 50 (get_deriv_data symbol "5m") then Ok (insufficient "5m" symbol)
    else if too_short 10 (get_deriv_data symbol "1m") then Ok (insufficient "1m" symbol)
    else
      match get_deriv_data symbol "15m", get_deriv_data symbol "5m",
            get_deriv_data symbol "1m" with
      | Some d15, Some d5, Some d1 => analyze_frames symbol d15 d5 d1
      | _, _, _ => Ok (insufficient "15m" symbol)
      end.
Proof.
  unfold analysis. destruct timeframes as (-> & -> & ->).
  destruct (get_deriv_data symbol "15m") as [d15 | ]; simpl; [ | reflexivity].
  destruct (len d15 <? 100)%nat; [reflexivity | ].
  destruct (get_deriv_data symbol "5m") as [d5 | ]; simpl; [ | reflexivity].
  destruct (len d5 <? 50)%nat; [reflexivity | ].
  destruct (get_deriv_data symbol "1m") as [d1 | ]; simpl; [ | reflexivity].
  destruct (len d1 <? 10)%nat; reflexivity.
Qed.

Lemma analysis_frames (symbol : string) (d15 d5 d1 : DataFrame) :
  get_deriv_data symbol "15m" = Some d15 ->
  get_deriv_data symbol "5m" = Some d5 ->
  get_deriv_data symbol "1m" = Some d1 ->
  (100 <= len d15)%nat -> (50 <= len d5)%nat -> (10 <= len d1)%nat ->
  analysis get_deriv_data symbol = analyze_frames symbol d15 d5 d1.
Proof.
  intros H15 H5 H1 L15 L5 L1. rewrite analysis_cases, H15, H5, H1. simpl.
  now rewrite !(proj2 (Nat.ltb_ge _ _)).
Qed.

(** A returned signal comes from three frames that passed their checks
  and from a run of lines 160-199 that raised nothing. *)
Lemma signal_inv (symbol : string) (a : Analysis) (log : list LogRecord) :
  analyze_volatility get_deriv_data symbol = (Some a, log) ->
  exists d15 d5 d1,
    get_deriv_data symbol "15m" = Some d15 /\
    get_deriv_data symbol "5m" = Some d5 /\
    get_deriv_data symbol "1m" = Some d1 /\
    (100 <= len d15)%nat /\ (50 <= len d5)%nat /\ (10 <= len d1)%nat /\
    analyze_frames symbol d15 d5 d1 = Ok (Some a, log).
Proof.
  unfold analyze_volatility. rewrite analysis_cases.
  destruct (get_deriv_data symbol "15m") as [d15 | ]; simpl; [ | discriminate].
  destruct (len d15 <? 100)%nat eqn:L15; [discriminate | ].
  destruct (get_deriv_data symbol "5m") as [d5 | ]; simpl; [ | discriminate].
  destruct (len d5 <? 50)%nat eqn:L5; [discriminate | ].
  destruct (get_deriv_data symbol "1m") as [d1 | ]; simpl; [ | discriminate].
  destruct (len d1 <? 10)%nat eqn:L1; [discriminate | ].
  apply Nat.ltb_ge in L15, L5, L1.
  destruct (analyze_frames symbol d15 d5 d1) as [out | e] eqn:E; simpl;
    [ | discriminate].
  intros ->. exists d15, d5, d1. auto 10.
Qed.

(** The indicators behind a returned signal. *)
Lemma signal_indicators (symbol : string) (a : Analysis) (log : list LogRecord) :
  analyze_volatility get_deriv_data symbol = (Some a, log) ->
  exists d15 d5 d1 atr_sl atr_tp support resistance last_close label direction w,
    get_deriv_data symbol "15m" = Some d15 /\
    get_deriv_data symbol "5m" = Some d5 /\
    get_deriv_data symbol "1m" = Some d1 /\
    (100 <= len d15)%nat /\
    latest_atr d5 = Ok atr_sl /\ latest_atr d15 = Ok atr_tp /\
    support_level d15 = Ok support /\ resistance_level d15 = Ok resistance /\
    last_close_of d1 = Ok last_close /\ trend_of d15 = Ok label /\
    detect_signal last_close support resistance (buffer_of support resistance)
                  atr_sl label
      = Some (direction, last_close,
              match direction with
              | BUY => sub last_close (mul atr_sl (Fin 3))
              | SELL => add last_close (mul atr_sl (Fin 3))
              end) /\
    calculate_winrate d15 = Ok w /\
    log = [] /\
    a = report symbol direction last_close
          (match direction with
           | BUY => sub last_close (mul atr_sl (Fin 3))
           | SELL => add last_close (mul atr_sl (Fin 3))
           end) atr_tp label w.
Proof.
  intros H. apply signal_inv in H as (d15 & d5 & d1 & H15 & H5 & H1 & L15 & _ & _ & H).
  rewrite analyze_frames_candles in H.
  apply bind_Ok in H as (_ & _ & H). apply bind_Ok in H as (_ & _ & H).
  apply bind_Ok in H as (atr_sl & Hsl & H). apply bind_Ok in H as (atr_tp & Htp & H).
  apply bind_Ok in H as (support & Hs & H). apply bind_Ok in H as (resistance & Hr & H).
  apply bind_Ok in H as (last_close & Hc & H). apply bind_Ok in H as (label & Hl & H).
  unfold outcome in H.
  destruct (detect_signal _ _ _ _ _ _) as [[[direction entry] stop] | ] eqn:Hd;
    [ | discriminate].
  apply bind_Ok in H as (w & Hw & H). injection H as <- <-.
  assert (Hshape : entry = last_close /\
                   stop = match direction with
                          | BUY => sub last_close (mul atr_sl (Fin 3))
                          | SELL => add last_close (mul atr_sl (Fin 3))
                          end).
  { unfold detect_signal in Hd.
    destruct (gtb _ _ && _); [injection Hd as <- <- <-; auto | ].
    destruct (ltb _ _ && _); [injection Hd as <- <- <-; auto | discriminate]. }
  destruct Hshape as [-> ->].
  exists d15, d5, d1, atr_sl, atr_tp, support, resistance, last_close, label, direction, w.
  auto 20.
Qed.

Context {C : TaLibContract L}.









End WithLibrary.


(** The boundary itself: 99 trend candles are refused, 100 are analysed. *)
Example threshold_99 :
  analyze_volatility (L := Reference.lib)
    (source (Some (candles rising 99)) (Some (candles rising 50)) (Some (flat 201 10)))
    "EURUSD"
  = (None, [(ERROR, "Error: Insufficient 15m data for EURUSD"%string)]).
Proof. vm_compute. reflexivity. Qed.

Example threshold_100 :
  analyze_volatility (L := Reference.lib) (uptrend 201) "EURUSD"
  = (Some {| symbol := "EURUSD"; signal := BUY; winrate := "100.0%";
             trend := "Up trend"; entry := Fin 201; sl := Fin 195;
             tp1 := Fin 203; tp2 := Fin 205 |}, []).
Proof. vm_compute. reflexivity. Qed.


(** The spec's boundary example, on a trend series whose band is
  [100, 110]: buffer 0.05, a close of 110.06 is a BUY, one of 110.03 is
  not. *)
Example breakout_boundary :
  detect_signal (Fin (11006 # 100)) (Fin 100) (Fin 110)
                (buffer_of (Fin 100) (Fin 110)) (Fin 1) "Up trend"
    = Some (BUY, Fin (11006 # 100), Fin (5353 # 50)) /\
  detect_signal (Fin (11003 # 100)) (Fin 100) (Fin 110)
                (buffer_of (Fin 100) (Fin 110)) (Fin 1) "Up trend" = None /\
  buffer_of (Fin 100) (Fin 110) = Fin (1 # 20).
Proof. vm_compute. auto. Qed.

End Signals.

(** ** The returned signal *)

Module Levels.
Import Float FloatFacts PandasFacts TrendClassifier Frames Engine WinRate Signals.

Lemma detect_signal_Some (last_close support resistance buffer atr_sl : float)
    (label : string) (direction : Direction) (entry stop : float) :
  detect_signal last_close support resistance buffer atr_sl label
    = Some (direction, entry, stop) ->
  (direction = BUY /\ gtb last_close (add resistance buffer) = true
   /\ label = "Up trend"%string) \/
  (direction = SELL /\ ltb last_close (sub support buffer) = true
   /\ label = "Down trend"%string).
Proof.
  unfold detect_signal.
  destruct (gtb last_close (add resistance buffer)) eqn:Eb;
    destruct (String.eqb_spec label "Up trend");
    destruct (ltb last_close (sub support buffer)) eqn:Es;
    destruct (String.eqb_spec label "Down trend");
    cbn [andb]; intros [= <- <- <-] || discriminate; auto.
Qed.

Lemma percent_not_na (s : string) : s +:+ "%" <> "N/A"%string.
Proof.
  destruct s as [ | c1 [ | c2 [ | c3 [ | c4 s]]]]; simpl; intros H;
    discriminate H.
Qed.

Lemma calculate_winrate_long (d : DataFrame) (w : string) :
  (100 <= len d)%nat -> calculate_winrate d = Ok w -> w <> "N/A"%string.
Proof.
  intros Hlen. unfold calculate_winrate. rewrite (proj2 (Nat.ltb_ge _ _) Hlen).
  intros H. apply bind_Ok in H as (closes & _ & H).
  apply bind_Ok in H as (ratio & _ & H). injection H as <-.
  apply percent_not_na.
Qed.

Section WithLibrary.

Context {L : TaLib}.
Variable get_deriv_data : string -> string -> option DataFrame.


(** C10: a returned signal never carries the label "N/A": the label is
  "Up trend" on BUY and "Down trend" on SELL; nor does it carry the
  win-rate marker "N/A". *)
Theorem signal_context (symbol : string) (a : Analysis) (log : list LogRecord) :
  analyze_volatility get_deriv_data symbol = (Some a, log) ->
  trend a <> "N/A"%string /\
  (signal a = BUY -> trend a = "Up trend"%string) /\
  (signal a = SELL -> trend a = "Down trend"%string) /\
  winrate a <> "N/A"%string.
Proof.
  intros H. apply signal_indicators in H
    as (d15 & d5 & d1 & atr_sl & atr_tp & support & resistance & last_close & label
        & direction & w & _ & _ & _ & L15 & _ & _ & _ & _ & _ & _ & Hd & Hw & _ & ->).
  cbn [trend signal winrate report].
  apply detect_signal_Some in Hd as [(-> & _ & ->) | (-> & _ & ->)];
    (split; [discriminate | ]); (split; [ | split]);
    try (intros; reflexivity || discriminate);
    now apply (calculate_winrate_long d15).
Qed.


End WithLibrary.


Lemma signal_context_witness :
  "Up trend"%string <> "N/A"%string /\
  (BUY = BUY -> "Up trend"%string = "Up trend"%string) /\
  (BUY = SELL -> "Up trend"%string = "Down trend"%string) /\
  "100.0%"%string <> "N/A"%string.
Proof.
  exact (signal_context (L := Reference.lib) (uptrend 201) "EURUSD" _ _ threshold_100).
Defined.



End Levels.

(** ** Determinism *)

Module Determinism.
Import Float PandasFacts Frames Engine Signals.

Lemma same_candles_refl (d : DataFrame) : same_candles d d.
Proof. split; auto. Qed.

Lemma same_series_refl (o : option DataFrame) : same_series o o.
Proof. destruct o; simpl; [apply same_candles_refl | exact I]. Qed.

Lemma same_candles_getitem (d e : DataFrame) (k : string) :
  same_candles d e -> k ∈ candle_columns -> getitem d k = getitem e k.
Proof. intros [_ H] Hk. unfold getitem. now rewrite (H k Hk). Qed.

Lemma same_candles_hlc (d e : DataFrame) :
  same_candles d e -> hlc_of d = hlc_of e.
Proof.
  intros H. unfold hlc_of.
  rewrite (same_candles_getitem d e "high" H) by (unfold candle_columns; set_solver).
  rewrite (same_candles_getitem d e "low" H) by (unfold candle_columns; set_solver).
  rewrite (same_candles_getitem d e "close" H) by (unfold candle_columns; set_solver).
  reflexivity.
Qed.

Lemma same_series_too_short (n : nat) (a b : option DataFrame) :
  same_series a b -> too_short n a = too_short n b.
Proof.
  destruct a, b; simpl; try contradiction; [ | reflexivity].
  intros [-> _]. reflexivity.
Qed.

Section WithLibrary.

Context {L : TaLib}.

(** Lines 160-199 on two triples of frames that carry the same candles. *)
Lemma analyze_frames_same (symbol : string) (d15 d5 d1 e15 e5 e1 : DataFrame) :
  same_candles d15 e15 -> same_candles d5 e5 -> same_candles d1 e1 ->
  analyze_frames symbol d15 d5 d1 = analyze_frames symbol e15 e5 e1.
Proof.
  intros S15 S5 S1. rewrite !analyze_frames_candles.
  unfold latest_atr, support_level, resistance_level, last_close_of, outcome.
  rewrite (same_candles_hlc d5 e5 S5), (same_candles_hlc d15 e15 S15).
  rewrite (same_candles_getitem d15 e15 "low" S15) by (unfold candle_columns; set_solver).
  rewrite (same_candles_getitem d15 e15 "high" S15) by (unfold candle_columns; set_solver).
  rewrite (same_candles_getitem d1 e1 "close" S1) by (unfold candle_columns; set_solver).
  assert (Hclose : getitem d15 "close" = getitem e15 "close")
    by (apply same_candles_getitem; [assumption | unfold candle_columns; set_solver]).
  rewrite (trend_of_ext d15 e15 (proj1 S15) Hclose).
  rewrite (calculate_winrate_ext d15 e15 (proj1 S15) Hclose).
  reflexivity.
Qed.

(** C9: the result of the analysis is a function of the three candle
  series it is served: two runs on the same series (the same rows and
  the same high, low and close columns) return the same value and write
  the same log records, whatever else the frames hold and whatever the
  source answers for other requests. *)
Theorem analysis_deterministic
    (source1 source2 : string -> string -> option DataFrame) (symbol : string) :
  same_series (source1 symbol "15m") (source2 symbol "15m") ->
  same_series (source1 symbol "5m") (source2 symbol "5m") ->
  same_series (source1 symbol "1m") (source2 symbol "1m") ->
  analyze_volatility source1 symbol = analyze_volatility source2 symbol.
Proof.
  intros S15 S5 S1. unfold analyze_volatility. f_equal.
  rewrite !analysis_cases.
  rewrite (same_series_too_short 100 _ _ S15), (same_series_too_short 50 _ _ S5),
    (same_series_too_short 10 _ _ S1).
  destruct (too_short 100 (source2 symbol "15m")); [reflexivity | ].
  destruct (too_short 50 (source2 symbol "5m")); [reflexivity | ].
  destruct (too_short 10 (source2 symbol "1m")); [reflexivity | ].
  destruct (source1 symbol "15m") as [d15 | ], (source2 symbol "15m") as [e15 | ];
    simpl in S15; try contradiction; [ | reflexivity].
  destruct (source1 symbol "5m") as [d5 | ], (source2 symbol "5m") as [e5 | ];
    simpl in S5; try contradiction; [ | reflexivity].
  destruct (source1 symbol "1m") as [d1 | ], (source2 symbol "1m") as [e1 | ];
    simpl in S1; try contradiction; [ | reflexivity].
  now apply analyze_frames_same.
Qed.

End WithLibrary.

Lemma analysis_deterministic_witness :
  analyze_volatility (L := Reference.lib) (uptrend 201) "EURUSD"
  = analyze_volatility (L := Reference.lib)
      (source (Some (setitem (candles rising 100) "EMA20" []))
              (Some (candles rising 50)) (Some (flat 201 10)))
      "EURUSD".
Proof.
  apply (analysis_deterministic (L := Reference.lib)).
  - split; [reflexivity | ]. intros k Hk. unfold candle_columns in Hk.
    repeat (apply elem_of_cons in Hk as [-> | Hk]); try (vm_compute; reflexivity).
    apply elem_of_nil in Hk. contradiction.
  - apply same_series_refl.
  - apply same_series_refl.
Defined.

End Determinism.



(** * Beyond the claims *)

(** ** The symbol table *)

Module SymbolTable.
Import PyStr.

Lemma map_check (m : gmap string string) (P : string * string -> bool)
    (k v : string) :
  forallb P (map_to_list m) = true -> m !! k = Some v -> P (k, v) = true.
Proof.
  intros H Hk. rewrite forallb_forall in H. apply H.
  apply list_elem_of_In. now apply elem_of_map_to_list.
Qed.

Lemma fixed_entries : forallb fixed_entry (map_to_list SYMBOL_MAP) = true.
Proof. vm_compute. reflexivity. Qed.

Lemma named_entries : forallb named_entry (map_to_list SYMBOL_MAP) = true.
Proof. vm_compute. reflexivity. Qed.

Lemma unreserved_entries :
  forallb (fun kv => negb (reserved_entry kv)) (map_to_list SYMBOL_MAP) = true.
Proof. vm_compute. reflexivity. Qed.

(** A provider symbol is never the name of another instrument. *)
Lemma provider_symbol_fixed (k v : string) :
  SYMBOL_MAP !! k = Some v -> convert_symbol v = v.
Proof.
  intros H. pose proof (map_check SYMBOL_MAP fixed_entry k v fixed_entries H) as Hc.
  unfold fixed_entry in Hc. cbn [snd] in Hc. apply String.eqb_eq in Hc. exact Hc.
Qed.

(** No two names share a provider symbol. *)
Lemma provider_symbol_name (k v : string) :
  SYMBOL_MAP !! k = Some v -> name_of v = Some k.
Proof.
  intros H. pose proof (map_check SYMBOL_MAP named_entry k v named_entries H) as Hc.
  unfold named_entry in Hc. cbn [fst snd] in Hc.
  destruct (name_of v) as [k' | ]; [ | discriminate].
  apply String.eqb_eq in Hc. now subst.
Qed.

(** No name of the table is a greeting or starts a PRICE command. *)
Lemma table_name_unreserved (k v : string) :
  SYMBOL_MAP !! k = Some v ->
  existsb (String.eqb k) ["HI"; "HELLO"; "START"]%string = false /\
  startswith k "PRICE " = false.
Proof.
  intros H. pose proof (map_check SYMBOL_MAP _ k v unreserved_entries H) as Hc.
  cbv beta in Hc. unfold reserved_entry in Hc. cbn [fst] in Hc.
  apply negb_true_iff, orb_false_iff in Hc. exact Hc.
Qed.

(** X1: converting a converted symbol changes nothing. *)
Theorem convert_symbol_idempotent (s : string) :
  is_ascii s = true ->
  convert_symbol (convert_symbol s) = convert_symbol s.
Proof.
  intros _. unfold convert_symbol at 2 3.
  destruct (SYMBOL_MAP !! upper s) as [v | ] eqn:E; cbn [from_option id].
  - now apply (provider_symbol_fixed (upper s)).
  - unfold convert_symbol. now rewrite E.
Qed.

Lemma convert_symbol_idempotent_witness :
  convert_symbol (convert_symbol "eurusd") = convert_symbol "eurusd".
Proof. apply (convert_symbol_idempotent "eurusd"). vm_compute. reflexivity. Defined.

(** X2: on the names of the table the conversion looks at nothing but
    the upper-cased name: two known names get the same provider symbol
    exactly when they are the same name up to case. *)
Theorem convert_symbol_known_names (s t : string) :
  is_ascii s = true -> is_ascii t = true ->
  is_Some (SYMBOL_MAP !! upper s) -> is_Some (SYMBOL_MAP !! upper t) ->
  (convert_symbol s = convert_symbol t <-> upper s = upper t).
Proof.
  intros _ _ [v Hs] [w Ht]. unfold convert_symbol. rewrite Hs, Ht.
  cbn [from_option id]. split.
  - intros <-. apply provider_symbol_name in Hs, Ht. congruence.
  - intros E. rewrite E in Hs. congruence.
Qed.

Lemma convert_symbol_known_names_witness :
  convert_symbol "Eurusd" = convert_symbol "eurUSD"
  <-> upper "Eurusd" = upper "eurUSD".
Proof.
  apply (convert_symbol_known_names "Eurusd" "eurUSD").
  - vm_compute. reflexivity.
  - vm_compute. reflexivity.
  - exists "frxEURUSD"%string. vm_compute. reflexivity.
  - exists "frxEURUSD"%string. vm_compute. reflexivity.
Defined.

End SymbolTable.

(** ** The webhook *)

Module WebhookFacts.
Import PyStr Float FloatFacts PandasFacts SymbolTable Signals.

Lemma prefix_app (p s : string) :
  String.prefix p s = true -> exists rest, s = p +:+ rest.
Proof.
  revert s. induction p as [ | a p IH]; intros s H.
  - exists s. reflexivity.
  - destruct s as [ | b s]; simpl in H; [discriminate | ].
    destruct (Ascii.ascii_dec a b) as [-> | ]; [ | discriminate H].
    destruct (IH s H) as [rest ->]. exists rest. reflexivity.
Qed.

Lemma prefix_app_true (p rest : string) : String.prefix p (p +:+ rest) = true.
Proof.
  induction p as [ | a p IH]; simpl; [destruct rest; reflexivity | ].
  destruct (Ascii.ascii_dec a a); [exact IH | contradiction].
Qed.

Lemma split_nonempty (sep : Ascii.ascii) (s : string) : split sep s <> [].
Proof.
  induction s as [ | c t IH]; simpl; [discriminate | ].
  destruct (Ascii.eqb c sep); [discriminate | ].
  destruct (split sep t); [contradiction | discriminate].
Qed.

Lemma split_no_space (s : string) :
  no_space s = true -> split Ascii.Space s = [s].
Proof.
  induction s as [ | c t IH]; simpl; [reflexivity | ].
  intros H. apply andb_true_iff in H as [Hc Ht]. apply negb_true_iff in Hc.
  rewrite Hc, (IH Ht). reflexivity.
Qed.

(** The piece before the first space, and the pieces of the rest. *)
Lemma split_at_space (p rest : string) :
  no_space p = true ->
  split Ascii.Space (p +:+ String Ascii.Space rest) = p :: split Ascii.Space rest.
Proof.
  induction p as [ | c t IH]; simpl; [reflexivity | ].
  intros H. apply andb_true_iff in H as [Hc Ht]. apply negb_true_iff in Hc.
  rewrite Hc, (IH Ht). reflexivity.
Qed.

Lemma split_price (rest : string) :
  split Ascii.Space ("PRICE " +:+ rest) = "PRICE"%string :: split Ascii.Space rest.
Proof. exact (split_at_space "PRICE" rest eq_refl). Qed.

(** A PRICE command always has a second piece. *)
Lemma price_token (msg : string) :
  startswith msg "PRICE " = true ->
  exists symbol, split Ascii.Space msg !! 1%nat = Some symbol.
Proof.
  intros H. apply prefix_app in H as [rest ->]. rewrite split_price.
  destruct (split Ascii.Space rest) as [ | w ws] eqn:E.
  - now apply split_nonempty in E.
  - exists w. reflexivity.
Qed.

Lemma last_close_of_Raise (df : DataFrame) (e : exn) :
  last_close_of df = Raise e <->
  (columns df !! "close"%string = None /\ e = KeyError "close") \/
  (columns df !! "close"%string = Some [] /\ e = IndexError).
Proof.
  unfold last_close_of, getitem, iloc_last.
  destruct (columns df !! "close"%string) as [s | ]; simpl.
  - destruct (last s) as [x | ] eqn:E.
    + split; [discriminate | ]. intros [[? _] | [[= ->] _]]; discriminate.
    + apply last_None in E. subst. split.
      * intros [= <-]. right. auto.
      * intros [[? _] | [_ ->]]; [discriminate | reflexivity].
  - split.
    + intros [= <-]. left. auto.
    + intros [[_ ->] | [? _]]; [reflexivity | discriminate].
Qed.

Lemma current_not_unavailable (s : string) :
  ("Current " +:+ s)%string <> PRICE_UNAVAILABLE.
Proof. unfold PRICE_UNAVAILABLE. simpl. discriminate. Qed.

Lemma price_message_unavailable (symbol : string) (price : float) :
  price_message symbol (Some price) = PRICE_UNAVAILABLE <->
  exists q, price = Fin q /\ (q == 0)%Q.
Proof.
  unfold price_message, truthy. split.
  - intros H. destruct price as [ | |q| ];
      try (now apply current_not_unavailable in H).
    destruct (Qeq_bool q 0) eqn:E; cbn [negb] in H;
      [ | now apply current_not_unavailable in H].
    apply Qeq_bool_iff in E. eauto.
  - intros (q & -> & E). apply Qeq_bool_iff in E. now rewrite E.
Qed.

Section WithLibrary.

Context {L : TaLib}.
Variable get_deriv_data : string -> string -> option DataFrame.

Lemma dispatch_greeting_or_table (msg : string) (e : web_exn) :
  startswith msg "PRICE " = false -> dispatch get_deriv_data msg <> Unhandled e.
Proof.
  intros H. unfold dispatch. rewrite H.
  destruct (existsb _ _); [discriminate | ].
  destruct (SYMBOL_MAP !! msg); discriminate.
Qed.

(** How a PRICE command runs. *)
Lemma dispatch_price (msg symbol : string) :
  startswith msg "PRICE " = true ->
  split Ascii.Space msg !! 1%nat = Some symbol ->
  dispatch get_deriv_data msg =
    match get_deriv_data symbol "1m" with
    | None => Message PRICE_UNAVAILABLE
    | Some df =>
        match last_close_of df with
        | Ok price => Message (price_message symbol (Some price))
        | Raise e => Unhandled (Uncaught e)
        end
    end.
Proof.
  intros Hp Hs. unfold dispatch. rewrite Hp.
  assert (Hg : existsb (String.eqb msg) ["HI"; "HELLO"; "START"]%string = false).
  { apply prefix_app in Hp as [rest ->]. reflexivity. }
  rewrite Hg. unfold price_command. rewrite Hs. reflexivity.
Qed.

(** X3: the view function lets an exception out in two situations only:
    the request has no Body, or a PRICE command is answered by a frame
    that has no "close" column or no row.  Parsing a PRICE command never
    fails, and greetings, analyses and unknown commands always get a
    reply. *)
Theorem webhook_unhandled (body : option string) (e : web_exn) :
  (forall b, body = Some b -> is_ascii b = true) ->
  webhook get_deriv_data body = Unhandled e <->
  (body = None /\ e = AttributeError) \/
  (exists b symbol df,
     body = Some b /\
     startswith (upper (strip b)) "PRICE " = true /\
     split Ascii.Space (upper (strip b)) !! 1%nat = Some symbol /\
     get_deriv_data symbol "1m" = Some df /\
     ((columns df !! "close"%string = None /\ e = Uncaught (KeyError "close")) \/
      (columns df !! "close"%string = Some [] /\ e = Uncaught IndexError))).
Proof.
  intros _. destruct body as [b | ]; simpl.
  - set (msg := upper (strip b)). split.
    + intros H. right.
      destruct (startswith msg "PRICE ") eqn:Hp;
        [ | now apply dispatch_greeting_or_table in H].
      destruct (price_token msg Hp) as [symbol Hs].
      rewrite (dispatch_price msg symbol Hp Hs) in H.
      destruct (get_deriv_data symbol "1m") as [df | ] eqn:Hdf; [ | discriminate].
      destruct (last_close_of df) as [price | e'] eqn:Hc; [discriminate | ].
      injection H as <-. apply last_close_of_Raise in Hc.
      exists b, symbol, df. repeat (split; [reflexivity || assumption | ]).
      destruct Hc as [[Hc ->] | [Hc ->]]; auto.
    + intros [[? _] | (b' & symbol & df & [= <-] & Hp & Hs & Hdf & He)];
        [discriminate | ].
      fold msg in Hp, Hs. rewrite (dispatch_price msg symbol Hp Hs), Hdf.
      destruct He as [[Hc ->] | [Hc ->]].
      * rewrite (proj2 (last_close_of_Raise df (KeyError "close"))); auto.
      * rewrite (proj2 (last_close_of_Raise df IndexError)); auto.
  - split.
    + intros [= <-]. left. auto.
    + intros [[_ ->] | (b & _ & _ & ? & _)]; [reflexivity | discriminate].
Qed.

(** X4: a PRICE command asks for its second word and ignores whatever
    follows it. *)
Theorem price_second_word (symbol rest : string) :
  no_space symbol = true ->
  split Ascii.Space ("PRICE " +:+ symbol +:+ " " +:+ rest) !! 1%nat = Some symbol /\
  dispatch get_deriv_data ("PRICE " +:+ symbol +:+ " " +:+ rest)
    = dispatch get_deriv_data ("PRICE " +:+ symbol).
Proof.
  intros H.
  assert (H1 : split Ascii.Space ("PRICE " +:+ symbol +:+ " " +:+ rest) !! 1%nat
               = Some symbol).
  { rewrite split_price. change (" " +:+ rest)%string with (String Ascii.Space rest).
    now rewrite split_at_space. }
  assert (H2 : split Ascii.Space ("PRICE " +:+ symbol) !! 1%nat = Some symbol).
  { rewrite split_price. now rewrite split_no_space. }
  split; [exact H1 | ].
  rewrite (dispatch_price _ symbol (prefix_app_true "PRICE " _) H1).
  rewrite (dispatch_price _ symbol (prefix_app_true "PRICE " _) H2).
  reflexivity.
Qed.

(** X5: a PRICE command is answered "Price unavailable" exactly when
    the source has no frame for the symbol or the last close of the frame
    is zero; any other last close, NaN included, is printed. *)
Theorem price_unavailable_iff (msg symbol : string) :
  startswith msg "PRICE " = true ->
  split Ascii.Space msg !! 1%nat = Some symbol ->
  (dispatch get_deriv_data msg = Message PRICE_UNAVAILABLE <->
   get_deriv_data symbol "1m" = None \/
   exists df q, get_deriv_data symbol "1m" = Some df /\
                last_close_of df = Ok (Fin q) /\ (q == 0)%Q).
Proof.
  intros Hp Hs. rewrite (dispatch_price msg symbol Hp Hs).
  destruct (get_deriv_data symbol "1m") as [df | ]; [ | split; auto].
  destruct (last_close_of df) as [price | e] eqn:Hc.
  - split.
    + intros [= H]. right. apply price_message_unavailable in H as (q & -> & E).
      eauto.
    + intros [? | (df' & q & [= <-] & Hq & E)]; [discriminate | ].
      rewrite Hc in Hq. injection Hq as ->.
      f_equal. apply price_message_unavailable. eauto.
  - split; [discriminate | ].
    intros [? | (df' & q & [= <-] & Hq & _)]; [discriminate | ].
    rewrite Hc in Hq. discriminate.
Qed.

(** X6: every name of the table, typed in any case and with blanks
    around it, is answered by the analysis of that name: no name is taken
    for a greeting or for a PRICE command. *)
Theorem table_name_analysed (b v : string) :
  is_ascii b = true ->
  SYMBOL_MAP !! upper (strip b) = Some v ->
  webhook get_deriv_data (Some b) =
    Message (analysis_message (upper (strip b))
               (fst (analyze_volatility get_deriv_data (upper (strip b))))).
Proof.
  intros _ H. unfold webhook, dispatch.
  destruct (table_name_unreserved _ _ H) as [-> ->]. now rewrite H.
Qed.



End WithLibrary.

Lemma webhook_unhandled_witness :
  webhook (L := Reference.lib) (source None None (Some (MoreSamples.bare 10)))
          (Some "price eurusd"%string)
    = Unhandled (Uncaught (KeyError "close")) <->
  (Some "price eurusd"%string = None
   /\ Uncaught (KeyError "close") = AttributeError) \/
  (exists b symbol df,
     Some "price eurusd"%string = Some b /\
     startswith (upper (strip b)) "PRICE " = true /\
     split Ascii.Space (upper (strip b)) !! 1%nat = Some symbol /\
     source None None (Some (MoreSamples.bare 10)) symbol "1m" = Some df /\
     ((columns df !! "close"%string = None
       /\ Uncaught (KeyError "close") = Uncaught (KeyError "close")) \/
      (columns df !! "close"%string = Some []
       /\ Uncaught (KeyError "close") = Uncaught IndexError))).
Proof.
  apply (webhook_unhandled (L := Reference.lib)
           (source None None (Some (MoreSamples.bare 10)))
           (Some "price eurusd"%string)).
  intros b [= <-]. vm_compute. reflexivity.
Defined.

Example price_on_bare_frame :
  webhook (L := Reference.lib) (source None None (Some (MoreSamples.bare 10)))
          (Some "price eurusd"%string)
  = Unhandled (Uncaught (KeyError "close")).
Proof. vm_compute. reflexivity. Qed.

Lemma price_second_word_witness :
  split Ascii.Space ("PRICE " +:+ "EURUSD" +:+ " " +:+ "NOW PLEASE") !! 1%nat
    = Some "EURUSD"%string /\
  dispatch (L := Reference.lib) (uptrend 201)
           ("PRICE " +:+ "EURUSD" +:+ " " +:+ "NOW PLEASE")
    = dispatch (L := Reference.lib) (uptrend 201) ("PRICE " +:+ "EURUSD").
Proof.
  apply (price_second_word (L := Reference.lib) (uptrend 201) "EURUSD" "NOW PLEASE").
  vm_compute. reflexivity.
Defined.

Lemma price_unavailable_iff_witness :
  dispatch (L := Reference.lib) (uptrend 0) "PRICE EURUSD" = Message PRICE_UNAVAILABLE <->
  uptrend 0 "EURUSD" "1m" = None \/
  exists df q, uptrend 0 "EURUSD" "1m" = Some df /\
               last_close_of df = Ok (Fin q) /\ (q == 0)%Q.
Proof.
  apply (price_unavailable_iff (L := Reference.lib) (uptrend 0) "PRICE EURUSD" "EURUSD");
    vm_compute; reflexivity.
Defined.

Example price_zero :
  dispatch (L := Reference.lib) (uptrend 0) "PRICE EURUSD" = Message PRICE_UNAVAILABLE.
Proof. vm_compute. reflexivity. Qed.

Lemma table_name_analysed_witness :
  webhook (L := Reference.lib) (uptrend 201) (Some " eurusd "%string) =
    Message (analysis_message (upper (strip " eurusd "))
               (fst (analyze_volatility (L := Reference.lib) (uptrend 201)
                       (upper (strip " eurusd "))))).
Proof.
  apply (table_name_analysed (L := Reference.lib) (uptrend 201) " eurusd " "frxEURUSD");
    vm_compute; reflexivity.
Defined.


End WebhookFacts.

(** ** Outcomes of the analysis *)

Module Outcomes.
Import Float FloatFacts PandasFacts TrendClassifier Frames Engine WinRate Signals Levels.

(** [calculate_winrate] reads the row count and the closes only. *)
Lemma calculate_winrate_cases (d : DataFrame) :
  calculate_winrate d =
    if (len d <? 100)%nat then Ok "N/A"%string
    else
      closes <~ getitem d "close";;
      ratio <~ int_truediv (length (positive (dropna (pct_change closes))))
                           (length (dropna (pct_change closes)));;
      Ok (format_fixed 1 (mul ratio (Fin 100)) +:+ "%").
Proof. reflexivity. Qed.

Lemma div_of_nat (a n : nat) :
  div (of_nat a) (of_nat (S n))
  = Fin (Qred (inject_Z (Z.of_nat a) / inject_Z (Z.of_nat (S n)))).
Proof.
  assert (Hpos : (0 < inject_Z (Z.of_nat (S n)))%Q).
  { change 0%Q with (inject_Z 0). rewrite <- Zlt_Qlt. lia. }
  unfold of_nat, div. now rewrite (Qsign_pos _ Hpos).
Qed.

(** X10: whatever the closes are, the estimator answers "N/A" or a
    percentage between 0 and 100. *)
Theorem winrate_in_range (d : DataFrame) (w : string) :
  calculate_winrate d = Ok w ->
  w = "N/A"%string \/
  exists q, (0 <= q <= 100)%Q /\ w = (format_fixed 1 (Fin q) +:+ "%")%string.
Proof.
  rewrite calculate_winrate_cases.
  destruct (len d <? 100)%nat; [intros [= <-]; now left | ].
  intros H. right. apply bind_Ok in H as (closes & _ & H).
  apply bind_Ok in H as (ratio & Hr & [= <-]).
  set (wins := length (positive (dropna (pct_change closes)))) in *.
  set (n := length (dropna (pct_change closes))) in *.
  assert (Hle : (wins <= n)%nat) by apply filter_length_le.
  unfold int_truediv in Hr. destruct n as [ | n']; [discriminate | ].
  rewrite div_of_nat in Hr. injection Hr as <-. cbn [mul].
  assert (Hpos : (0 < inject_Z (Z.of_nat (S n')))%Q).
  { change 0%Q with (inject_Z 0). rewrite <- Zlt_Qlt. lia. }
  eexists. split; [ | reflexivity]. rewrite !Qred_correct.
  assert (H0 : (0 <= inject_Z (Z.of_nat wins))%Q).
  { change 0%Q with (inject_Z 0). rewrite <- Zle_Qle. lia. }
  assert (H1 : (inject_Z (Z.of_nat wins) <= inject_Z (Z.of_nat (S n')))%Q).
  { rewrite <- Zle_Qle. lia. }
  set (a := inject_Z (Z.of_nat wins)) in *.
  set (b := inject_Z (Z.of_nat (S n'))) in *.
  assert (E : (a / b * b == a)%Q) by (field; lra).
  set (r := (a / b)%Q) in *. split; nra.
Qed.

Lemma winrate_in_range_witness :
  "100.0%"%string = "N/A"%string \/
  exists q, (0 <= q <= 100)%Q /\ "100.0%"%string = (format_fixed 1 (Fin q) +:+ "%")%string.
Proof.
  apply (winrate_in_range (candles rising 100)). vm_compute. reflexivity.
Defined.

Lemma zero_changes (t : Series) (x : float) :
  zero_price x = true -> forallb zero_price t = true ->
  dropna (zip_with change (x :: t) t) = [].
Proof.
  revert x. induction t as [ | y t IH]; intros x Hx Ht; [reflexivity | ].
  cbn [forallb] in Ht. apply andb_true_iff in Ht as [Hy Ht].
  assert (Hz : zip_with change (x :: y :: t) (y :: t)
               = change x y :: zip_with change (y :: t) t) by reflexivity.
  rewrite Hz. unfold dropna in *. cbn [List.filter].
  destruct x as [ | |a| ], y as [ | |b| ]; try discriminate.
  simpl in Hx, Hy. apply Qeq_bool_iff in Hx, Hy.
  assert (Hc : change (Fin a) (Fin b) = NaN).
  { unfold change. cbn [div].
    rewrite (Qsign_compat a 0 Hx), (Qsign_compat b 0 Hy). reflexivity. }
  rewrite Hc. cbn [notnan isnan negb]. apply (IH (Fin b)); [ | exact Ht].
  simpl. now apply Qeq_bool_iff.
Qed.

(** X11: on at least 100 rows whose closes are all zero no percentage
    change is defined, and the estimator divides by zero. *)
Theorem winrate_zero_closes (d : DataFrame) (closes : Series) :
  (100 <= len d)%nat -> getitem d "close" = Ok closes ->
  forallb zero_price closes = true ->
  calculate_winrate d = Raise ZeroDivisionError.
Proof.
  intros Hlen Hc Hz. rewrite calculate_winrate_cases.
  rewrite (proj2 (Nat.ltb_ge _ _) Hlen), Hc. cbn [bind].
  assert (Hd : dropna (pct_change closes) = []).
  { destruct closes as [ | x t]; [reflexivity | ].
    cbn [forallb] in Hz. apply andb_true_iff in Hz as [Hx Ht].
    unfold pct_change. unfold dropna. cbn [List.filter notnan isnan negb].
    now apply zero_changes. }
  rewrite Hd. reflexivity.
Qed.

Lemma winrate_zero_closes_witness :
  calculate_winrate (MoreSamples.zero_close 100) = Raise ZeroDivisionError.
Proof.
  apply (winrate_zero_closes _ (column (fun _ => 0%Q) 100)); vm_compute; reflexivity || lia.
Defined.

(** The first missing column, in the order the ATR reads them. *)
Lemma hlc_of_missing (d : DataFrame) :
  (columns d !! "high"%string = None -> hlc_of d = Raise (KeyError "high")) /\
  (is_Some (columns d !! "high"%string) -> columns d !! "low"%string = None ->
   hlc_of d = Raise (KeyError "low")) /\
  (is_Some (columns d !! "high"%string) -> is_Some (columns d !! "low"%string) ->
   columns d !! "close"%string = None -> hlc_of d = Raise (KeyError "close")).
Proof.
  unfold hlc_of, getitem. split; [ | split].
  - intros ->. reflexivity.
  - intros [h ->] ->. reflexivity.
  - intros [h ->] [l ->] ->. reflexivity.
Qed.

Section WithLibrary.

Context {L : TaLib}.
Variable get_deriv_data : string -> string -> option DataFrame.



(** X9: when the three series pass their length checks and the 5m frame
    lacks one of the columns the ATR reads, the call returns no analysis
    and logs the key error of the first missing column, in the order
    high, low, close. *)
Theorem missing_column_reported (symbol : string) (d15 d5 d1 : DataFrame) :
  get_deriv_data symbol "15m" = Some d15 ->
  get_deriv_data symbol "5m" = Some d5 ->
  get_deriv_data symbol "1m" = Some d1 ->
  (100 <= len d15)%nat -> (50 <= len d5)%nat -> (10 <= len d1)%nat ->
  (columns d5 !! "high"%string = None ->
   analyze_volatility get_deriv_data symbol
     = (None, [(ERROR, "Analysis Error: 'high'"%string)])) /\
  (is_Some (columns d5 !! "high"%string) -> columns d5 !! "low"%string = None ->
   analyze_volatility get_deriv_data symbol
     = (None, [(ERROR, "Analysis Error: 'low'"%string)])) /\
  (is_Some (columns d5 !! "high"%string) -> is_Some (columns d5 !! "low"%string) ->
   columns d5 !! "close"%string = None ->
   analyze_volatility get_deriv_data symbol
     = (None, [(ERROR, "Analysis Error: 'close'"%string)])).
Proof.
  intros H15 H5 H1 L15 L5 L1. unfold analyze_volatility.
  rewrite (analysis_frames get_deriv_data symbol d15 d5 d1) by assumption.
  rewrite analyze_frames_candles.
  destruct (hlc_of_missing d5) as (Hh & Hl & Hc).
  split; [ | split].
  - intros H. rewrite (Hh H). reflexivity.
  - intros H H'. rewrite (Hl H H'). reflexivity.
  - intros H H' H''. rewrite (Hc H H' H''). reflexivity.
Qed.

(** X12: a breakout is lost when the win-rate cannot be computed: if
    the decision rule finds a signal and [calculate_winrate] raises, the
    call returns no analysis and logs the exception. *)
Theorem breakout_dropped (symbol : string) (d15 d5 d1 : DataFrame)
    (atr_sl atr_tp support resistance last_close : float) (label : string)
    (found : Direction * float * float) (e : exn) :
  get_deriv_data symbol "15m" = Some d15 ->
  get_deriv_data symbol "5m" = Some d5 ->
  get_deriv_data symbol "1m" = Some d1 ->
  (100 <= len d15)%nat -> (50 <= len d5)%nat -> (10 <= len d1)%nat ->
  latest_atr d5 = Ok atr_sl -> latest_atr d15 = Ok atr_tp ->
  support_level d15 = Ok support -> resistance_level d15 = Ok resistance ->
  last_close_of d1 = Ok last_close -> trend_of d15 = Ok label ->
  detect_signal last_close support resistance (buffer_of support resistance)
                atr_sl label = Some found ->
  calculate_winrate d15 = Raise e ->
  analyze_volatility get_deriv_data symbol
    = (None, [(ERROR, ("Analysis Error: " +:+ exn_str e)%string)]).
Proof.
  intros H15 H5 H1 L15 L5 L1 Hsl Htp Hs Hr Hc Hl Hd Hw. unfold analyze_volatility.
  rewrite (analysis_frames get_deriv_data symbol d15 d5 d1) by assumption.
  rewrite analyze_frames_candles.
  pose proof Hsl as Hsl'. pose proof Htp as Htp'.
  unfold latest_atr in Hsl', Htp'.
  apply bind_Ok in Hsl' as (hlc5 & -> & _). apply bind_Ok in Htp' as (hlc15 & -> & _).
  cbn [bind]. rewrite Hsl, Htp, Hs, Hr, Hc, Hl. cbn [bind].
  unfold outcome. rewrite Hd. destruct found as [[direction entry] stop].
  rewrite Hw. reflexivity.
Qed.

End WithLibrary.

Lemma missing_column_reported_witness :
  analyze_volatility (L := Reference.lib)
    (source (Some (candles rising 100)) (Some (MoreSamples.no_high 50))
            (Some (flat 201 10))) "EURUSD"
  = (None, [(ERROR, "Analysis Error: 'high'"%string)]).
Proof.
  apply (missing_column_reported (L := Reference.lib) _ "EURUSD"
           (candles rising 100) (MoreSamples.no_high 50) (flat 201 10));
    vm_compute; reflexivity || lia.
Defined.

Lemma breakout_dropped_witness :
  analyze_volatility (L := Reference.lib)
    (source (Some (MoreSamples.zero_close 100)) (Some (candles rising 50))
            (Some (flat 1 10))) "EURUSD"
  = (None, [(ERROR, ("Analysis Error: " +:+ exn_str ZeroDivisionError)%string)]).
Proof.
  apply (breakout_dropped (L := Reference.lib) _ "EURUSD"
           (MoreSamples.zero_close 100) (candles rising 50) (flat 1 10)
           (Fin 2) (Fin 6) (Fin 5) (Fin 6) (Fin 1) "Down trend"
           (SELL, Fin 1, Fin 7));
    vm_compute; reflexivity || lia.
Defined.

End Outcomes.

(** ** Frames and the band *)

Module Band.
Import Float FloatFacts PandasFacts TrendClassifier Frames Engine WinRate Signals Levels.

Section WithLibrary.

Context {L : TaLib}.

Lemma setitem_twice (d : DataFrame) (s t : Series) :
  setitem (setitem (setitem (setitem d "EMA20" s) "EMA50" t) "EMA20" s) "EMA50" t
  = setitem (setitem d "EMA20" s) "EMA50" t.
Proof.
  unfold setitem. simpl. f_equal. apply map_eq. intros k.
  rewrite !lookup_insert. repeat case_decide; congruence.
Qed.

Lemma setitem_again (d : DataFrame) (k : string) (s : Series) :
  setitem (setitem d k s) k s = setitem d k s.
Proof. unfold setitem. simpl. f_equal. apply insert_insert_eq. Qed.

(** X13: the indicator steps store what they compute in the frame, and
    running one again on the frame it left changes nothing: the same label
    comes back and the frame stays as it is. *)
Theorem indicators_idempotent (d : DataFrame) :
  (forall label d', determine_trend d = Ok (label, d') ->
                    determine_trend d' = Ok (label, d')) /\
  (forall d', attach_atr d = Ok d' -> attach_atr d' = Ok d').
Proof.
  split.
  - intros label d' H. destruct (Nat.lt_ge_cases (len d) 50) as [Hs | Hl].
    + rewrite determine_trend_short in H by assumption. injection H as <- <-.
      now apply determine_trend_short.
    + destruct (getitem d "close") as [closes | e] eqn:Hc.
      * rewrite (determine_trend_run d closes Hl Hc) in H.
        destruct (iloc_last (ta_ema closes 20)) as [e20 | ] eqn:H20;
          cbn [bind] in H; [ | discriminate].
        destruct (iloc_last (ta_ema closes 50)) as [e50 | ] eqn:H50;
          cbn [bind] in H; [ | discriminate].
        injection H as <- <-.
        rewrite (determine_trend_run _ closes).
        -- rewrite H20, H50. cbn [bind]. now rewrite setitem_twice.
        -- exact Hl.
        -- now rewrite !getitem_setitem_ne by discriminate.
      * unfold determine_trend in H.
        rewrite (proj2 (Nat.ltb_ge _ _) Hl), Hc in H. discriminate.
  - intros d' H. rewrite attach_atr_hlc in *.
    destruct (hlc_of d) as [[[h l] c] | e] eqn:Hhlc; cbn [bind] in H; [ | discriminate].
    injection H as <-.
    assert (Hsame : hlc_of (setitem d "ATR" (ta_atr h l c 14)) = Ok (h, l, c)).
    { apply hlc_of_Ok in Hhlc as (Hh & Hl & Hc). apply hlc_of_Ok.
      now rewrite !getitem_setitem_ne by discriminate. }
    rewrite Hsame. cbn [bind]. now rewrite setitem_again.
Qed.

Variable get_deriv_data : string -> string -> option DataFrame.

(** X14: a BUY is returned only when the last close of the entry series
    is strictly above every high of the last 50 trend candles, a SELL only
    when it is strictly below every low of them (the trend frame being a
    frame of candles whose last candle has its low at or below its
    high). *)
Theorem signal_outside_window (symbol : string) (a : Analysis)
    (log : list LogRecord) (d15 : DataFrame) :
  analyze_volatility get_deriv_data symbol = (Some a, log) ->
  get_deriv_data symbol "15m" = Some d15 ->
  candle_frame d15 = true -> last_candle_ordered d15 = true ->
  exists lows highs d1 last_close,
    getitem d15 "low" = Ok lows /\ getitem d15 "high" = Ok highs /\
    get_deriv_data symbol "1m" = Some d1 /\ last_close_of d1 = Ok last_close /\
    match signal a with
    | BUY => forall q, Fin q ∈ trailing 50 highs -> ltb (Fin q) last_close = true
    | SELL => forall q, Fin q ∈ trailing 50 lows -> ltb last_close (Fin q) = true
    end.
Proof.
  intros Ha H15 Hcf Hord. apply signal_indicators in Ha
    as (d15' & d5 & d1 & atr_sl & atr_tp & support & resistance & last_close & label
        & direction & w & H15' & _ & H1 & Hlen & _ & _ & Hs & Hr & Hc & _ & Hd & _ & _ & ->).
  rewrite H15 in H15'. injection H15' as <-.
  destruct (candle_frame_column d15 "low" Hcf) as (lows & Hlow & Hll & Hlf);
    [unfold candle_columns; set_solver | ].
  destruct (candle_frame_column d15 "high" Hcf) as (highs & Hhigh & Hhl & Hhf);
    [unfold candle_columns; set_solver | ].
  exists lows, highs, d1, last_close. repeat (split; [assumption | ]).
  (* the two levels *)
  pose proof (forallb_trailing _ 50 _ Hlf) as Hlt.
  pose proof (forallb_trailing _ 50 _ Hhf) as Hht.
  destruct (series_min_spec (trailing 50 lows)) as (s & Hmin & _ & Hsle);
    [rewrite trailing_length; lia | assumption | ].
  destruct (series_max_spec (trailing 50 highs)) as (r & Hmax & _ & Hrle);
    [rewrite trailing_length; lia | assumption | ].
  unfold support_level in Hs. rewrite Hlow in Hs. cbn [bind] in Hs.
  unfold rolling_min in Hs. rewrite rolling_last, Hmin in Hs by (assumption || lia).
  injection Hs as <-.
  unfold resistance_level in Hr. rewrite Hhigh in Hr. cbn [bind] in Hr.
  unfold rolling_max in Hr. rewrite rolling_last, Hmax in Hr by (assumption || lia).
  injection Hr as <-.
  (* the last candle *)
  unfold last_candle_ordered in Hord.
  rewrite (proj1 (getitem_Ok _ _ _) Hlow), (proj1 (getitem_Ok _ _ _) Hhigh) in Hord.
  destruct (last lows) as [l | ] eqn:El; [ | discriminate].
  destruct (last highs) as [h | ] eqn:Eh; [ | discriminate].
  assert (Hl50 : l ∈ trailing 50 lows).
  { apply last_Some_elem_of. rewrite trailing_last by lia. exact El. }
  assert (Hh50 : h ∈ trailing 50 highs).
  { apply last_Some_elem_of. rewrite trailing_last by lia. exact Eh. }
  assert (Fl : isfinite l = true).
  { rewrite forallb_forall in Hlf. apply Hlf, list_elem_of_In.
    now apply last_Some_elem_of. }
  assert (Fh : isfinite h = true).
  { rewrite forallb_forall in Hhf. apply Hhf, list_elem_of_In.
    now apply last_Some_elem_of. }
  destruct l as [ | |ql| ]; try discriminate Fl.
  destruct h as [ | |qh| ]; try discriminate Fh.
  apply leb_Fin in Hord.
  pose proof (Hsle ql Hl50) as Hs1. pose proof (Hrle qh Hh50) as Hr1.
  (* the decision *)
  cbn [signal report].
  apply detect_signal_Some in Hd as [(-> & Hb & _) | (-> & Hb & _)];
    intros q Hq; unfold gtb, buffer_of in Hb; cbn [mul add sub] in Hb;
    [pose proof (Hrle q Hq) | pose proof (Hsle q Hq)];
    destruct last_close as [ | |c| ]; try discriminate Hb; try reflexivity;
    apply ltb_Fin in Hb; apply ltb_Fin; rewrite !Qred_correct in Hb; lra.
Qed.

End WithLibrary.

Lemma signal_outside_window_witness :
  exists lows highs d1 last_close,
    getitem (candles rising 100) "low" = Ok lows /\
    getitem (candles rising 100) "high" = Ok highs /\
    uptrend 201 "EURUSD" "1m" = Some d1 /\ last_close_of d1 = Ok last_close /\
    forall q, Fin q ∈ trailing 50 highs -> ltb (Fin q) last_close = true.
Proof.
  apply (signal_outside_window (L := Reference.lib) (uptrend 201) "EURUSD" _ _
           (candles rising 100) threshold_100); vm_compute; reflexivity.
Defined.

End Band.
